(** * Trivia API (backend/flaskr/__init__.py): pagination, handlers, error mapping

    A shallow embedding of the Flask application factory [create_app] and of
    the helper [paginate_questions].  Python values that travel through JSON
    are values of [json]; the handlers are functions from the store and the
    request to an [outcome]; the store is passed explicitly. *)

From Stdlib Require Import ZArith List String Ascii Bool Lia.
From Stdlib Require Import Permutation Sorted DecimalString.
From Stdlib Require DecimalPos.
Import ListNotations.

Local Open Scope string_scope.
Local Open Scope list_scope.
Local Open Scope Z_scope.

Set Implicit Arguments.
Set Warnings "-register-all".

(* ------------------------------------------------------------------ *)
(** ** Python values and primitives *)
(* ------------------------------------------------------------------ *)

(** What [request.get_json()] can hand to a handler.  JSON numbers with a
    fraction are left out: no handler computes with them. *)
Inductive json : Type :=
| JNull
| JBool (b : bool)
| JInt (z : Z)
| JStr (s : string)
| JList (l : list json)
| JObj (kv : list (string * json)).

Module Py.

(** [d.get(k)] / [k in d] on a dict kept as an association list: the first
    binding of a key is the dict's binding. *)
Fixpoint assoc {V : Type} (k : string) (d : list (string * V)) : option V :=
  match d with
  | [] => None
  | (k', v) :: d' => if String.eqb k k' then Some v else assoc k d'
  end.

Definition contains_key {V : Type} (k : string) (d : list (string * V)) : bool :=
  match assoc k d with Some _ => true | None => false end.

(** [l[start:stop]] with Python's rules: a negative index counts from the
    end, every index is clamped to [0, len l], and a stop that is not past
    the start gives the empty list. *)
Definition slice_index (n i : Z) : Z :=
  if i <? 0 then Z.max (i + n) 0 else Z.min i n.

Definition slice {A : Type} (l : list A) (start stop : Z) : list A :=
  let n := Z.of_nat (List.length l) in
  let lo := slice_index n start in
  let hi := slice_index n stop in
  firstn (Z.to_nat (hi - lo)) (skipn (Z.to_nat lo) l).

(** [int(s)] on ASCII text: surrounding white space (tab, line feed, vertical
    tab, form feed, carriage return, space) is dropped, one sign is allowed,
    then decimal digits, where a single underscore may stand between two
    digits.  [None] is Python's ValueError.  The text is taken to be ASCII:
    the white space and the digits that Python knows beyond ASCII are not
    modelled. *)
Definition is_space (c : ascii) : bool :=
  let n := nat_of_ascii c in
  (((9 <=? n) && (n <=? 13)) || (n =? 32))%nat.

Definition digit_of (c : ascii) : option Z :=
  let n := Z.of_nat (nat_of_ascii c) in
  if (48 <=? n) && (n <=? 57) then Some (n - 48) else None.

Fixpoint lstrip (s : list ascii) : list ascii :=
  match s with
  | c :: s' => if is_space c then lstrip s' else s
  | [] => []
  end.

Definition strip (s : list ascii) : list ascii :=
  rev (lstrip (rev (lstrip s))).

Fixpoint digits (acc : Z) (after_digit : bool) (s : list ascii) : option Z :=
  match s with
  | [] => if after_digit then Some acc else None
  | c :: s' =>
      match digit_of c with
      | Some d => digits (10 * acc + d) true s'
      | None =>
          if Ascii.eqb c "_" && after_digit then digits acc false s' else None
      end
  end.

Definition int (s : string) : option Z :=
  match strip (list_ascii_of_string s) with
  | "-"%char :: r => option_map Z.opp (digits 0 false r)
  | "+"%char :: r => digits 0 false r
  | t => digits 0 false t
  end.

(** [str(n)] for an integer. *)
Definition str_of_int (z : Z) : string :=
  NilZero.string_of_int (Z.to_int z).

End Py.

(** ** The request

    [args] is the query string as werkzeug's MultiDict ([get] reads the first
    value of a key); [body] is what [request.get_json()] returns, [JNull]
    standing for Python's None. *)
Record Request : Type := mkRequest {
  args : list (string * string);
  body : json
}.

(** [request.args.get(key, default, type=int)]: the default when the key is
    missing and also when the conversion raises ValueError. *)
Definition args_get_int (a : list (string * string)) (key : string) (default : Z) : Z :=
  match Py.assoc key a with
  | None => default
  | Some v => match Py.int v with
              | Some z => z
              | None => default
              end
  end.

(* ------------------------------------------------------------------ *)
(** ** models.py *)
(* ------------------------------------------------------------------ *)

Module Question.

(** Modelled from the spec: models.py (the Question model) is not part of
    the sources at hand.  Section 3 of the specification gives the five
    fields and their types. *)
Record t : Type := mk {
  id : Z;
  question : string;
  answer : string;
  category : Z;
  difficulty : Z
}.

(** Modelled from the spec: [Question.format] of models.py.  The
    specification fixes the serialized form as
    [{id, question, answer, category, difficulty}]. *)
Definition format (q : t) : json :=
  JObj [ ("id", JInt (id q));
         ("question", JStr (question q));
         ("answer", JStr (answer q));
         ("category", JInt (category q));
         ("difficulty", JInt (difficulty q)) ].

End Question.

Module Category.

(** Modelled from the spec: the Category model of models.py, an id and a
    type label. *)
Record t : Type := mk {
  id : Z;
  type : string
}.

End Category.

(* ------------------------------------------------------------------ *)
(** ** Pagination *)
(* ------------------------------------------------------------------ *)

Definition QUESTIONS_PER_PAGE : Z := 10.

Definition requested_page (request : Request) : Z :=
  args_get_int (args request) "page" 1.

Definition paginate_questions (request : Request) (selection : list Question.t)
  : list json :=
  let page := requested_page request in
  let start := (page - 1) * QUESTIONS_PER_PAGE in
  let end_ := start + QUESTIONS_PER_PAGE in
  let questions := map Question.format selection in
  let current_questions := Py.slice questions start end_ in
  current_questions.

(* ------------------------------------------------------------------ *)
(** ** Exceptions *)
(* ------------------------------------------------------------------ *)

(** What a Python expression may raise here.  [HTTPException c] is what
    [abort(c)] raises. *)
Inductive exn : Type :=
| HTTPException (code : Z)
| AttributeError
| TypeError
| KeyError
| IndexError
| MultipleResultsFound
| StoreError.

Inductive result (A : Type) : Type :=
| Done (a : A)
| Raises (e : exn).

Arguments Done {A} a.
Arguments Raises {A} e.

Definition bind {A B : Type} (r : result A) (k : A -> result B) : result B :=
  match r with
  | Done a => k a
  | Raises e => Raises e
  end.

Notation "x <- e ;; k" := (bind e (fun x => k))
  (at level 61, e at next level, right associativity).

Definition abort {A : Type} (code : Z) : result A := Raises (HTTPException code).

(** [try: body  except BaseException: handler]: whatever the body raises,
    an [abort] of its own included, the handler runs instead. *)
Definition try_except {A : Type} (body handler : result A) : result A :=
  match body with
  | Done a => Done a
  | Raises _ => handler
  end.

Module PyObj.

(** [v.get(k, None)]: only a dict has the method. *)
Definition get (v : json) (k : string) : result json :=
  match v with
  | JObj kv => Done (match Py.assoc k kv with Some x => x | None => JNull end)
  | _ => Raises AttributeError
  end.

(** [k in v] for a dict [v]. *)
Definition has (v : json) (k : string) : bool :=
  match v with
  | JObj kv => Py.contains_key k kv
  | _ => false
  end.

(** [v[k]] with a string key. *)
Definition getitem (v : json) (k : string) : result json :=
  match v with
  | JObj kv => match Py.assoc k kv with Some x => Done x | None => Raises KeyError end
  | _ => Raises TypeError
  end.

(** [v is None]. *)
Definition is_none (v : json) : bool :=
  match v with JNull => true | _ => false end.

(** [v == 0]: true of the integer 0 and of False. *)
Definition eq_zero (v : json) : bool :=
  match v with
  | JInt z => z =? 0
  | JBool b => negb b
  | _ => false
  end.

(** [l[i]] on a list. *)
Definition index {A : Type} (l : list A) (i : Z) : result A :=
  let n := Z.of_nat (List.length l) in
  let j := if i <? 0 then i + n else i in
  if (0 <=? j) && (j <? n)
  then match nth_error l (Z.to_nat j) with
       | Some a => Done a
       | None => Raises IndexError
       end
  else Raises IndexError.

End PyObj.

(* ------------------------------------------------------------------ *)
(** ** The store *)
(* ------------------------------------------------------------------ *)

(** Modelled from the spec: the database behind models.py.  The rows of the
    two tables, and the sequence that assigns question ids ("unique,
    system-assigned"; a deleted id does not come back). *)
Record Store : Type := mkStore {
  question_table : list Question.t;
  category_table : list Category.t;
  next_question_id : Z
}.

Module Db.

(** [order_by]: a stable insertion sort. *)
Fixpoint insert_by {A : Type} (le : A -> A -> bool) (x : A) (l : list A) : list A :=
  match l with
  | [] => [x]
  | y :: l' => if le x y then x :: l else y :: insert_by le x l'
  end.

Fixpoint order_by {A : Type} (le : A -> A -> bool) (l : list A) : list A :=
  match l with
  | [] => []
  | x :: l' => insert_by le x (order_by le l')
  end.

Definition order_by_id (l : list Question.t) : list Question.t :=
  order_by (fun a b => Question.id a <=? Question.id b) l.

Definition order_by_type (l : list Category.t) : list Category.t :=
  order_by (fun a b => String.leb (Category.type a) (Category.type b)) l.

(** [one_or_none()]. *)
Definition one_or_none {A : Type} (l : list A) : result (option A) :=
  match l with
  | [] => Done None
  | [a] => Done (Some a)
  | _ => Raises MultipleResultsFound
  end.

(** SQL LIKE: [%] stands for any run of characters, [_] for any one
    character, a backslash makes the character after it stand for itself,
    and every other character stands for itself.  A pattern that ends in a
    lone backslash matches nothing here (the store refuses it); the patterns
    of the search end in [%] and are never of that kind. *)
Fixpoint like (p s : list ascii) : bool :=
  match p with
  | [] => match s with [] => true | _ => false end
  | c :: p' =>
      if Ascii.eqb c "%" then
        (fix any (s : list ascii) : bool :=
           like p' s || match s with [] => false | _ :: s' => any s' end) s
      else if Ascii.eqb c "\" then
        match p' with
        | [] => false
        | e :: p'' =>
            match s with
            | [] => false
            | d :: s' => Ascii.eqb e d && like p'' s'
            end
        end
      else
        match s with
        | [] => false
        | d :: s' => (Ascii.eqb c "_" || Ascii.eqb c d) && like p' s'
        end
  end.

Definition lower (c : ascii) : ascii :=
  let n := nat_of_ascii c in
  if ((65 <=? n) && (n <=? 90))%nat then ascii_of_nat (n + 32) else c.

Definition lower_text (s : string) : list ascii :=
  map lower (list_ascii_of_string s).

(** [column.ilike(pattern)]: LIKE after folding the case of both sides
    (letters A-Z). *)
Definition ilike (text pattern : string) : bool :=
  like (lower_text pattern) (lower_text text).

(** The integer a text stands for when the store compares it with an integer
    column: a decimal numeral, with a sign and white space around it
    allowed. *)
Fixpoint numeral (acc : Z) (after_digit : bool) (s : list ascii) : option Z :=
  match s with
  | [] => if after_digit then Some acc else None
  | c :: s' =>
      match Py.digit_of c with
      | Some d => numeral (10 * acc + d) true s'
      | None => None
      end
  end.

Definition int_of_text (s : string) : option Z :=
  match Py.strip (list_ascii_of_string s) with
  | "-"%char :: r => option_map Z.opp (numeral 0 false r)
  | "+"%char :: r => numeral 0 false r
  | t => numeral 0 false t
  end.

(** A value bound to an integer column in a comparison: an integer, a text
    that the store reads as an integer, or NULL for None; anything else is
    refused by the store. *)
Definition int_param (v : json) : result (option Z) :=
  match v with
  | JInt z => Done (Some z)
  | JStr s => match int_of_text s with
              | Some z => Done (Some z)
              | None => Raises StoreError
              end
  | JNull => Done None
  | _ => Raises StoreError
  end.

Fixpoint int_params (l : list json) : result (list (option Z)) :=
  match l with
  | [] => Done []
  | v :: l' => x <- int_param v ;; xs <- int_params l' ;; Done (x :: xs)
  end.

(** The values handed to [notin_]: a JSON array of such parameters. *)
Definition id_list (v : json) : result (list (option Z)) :=
  match v with
  | JList l => int_params l
  | _ => Raises StoreError
  end.

(** [column.notin_(values)] on a row's integer [x]: SQL's NOT IN, which is
    not true of any row once a NULL is among the values. *)
Definition notin_ (x : Z) (values : list (option Z)) : bool :=
  forallb (fun v => match v with Some y => negb (x =? y) | None => false end) values.

(** [column == v] on a row's integer [x]; a comparison with NULL is not
    true. *)
Definition eq_param (x : Z) (v : option Z) : bool :=
  match v with Some y => x =? y | None => false end.

(** Modelled from the spec: [Question(...)] followed by [insert()] of
    models.py, for a store that keeps to the data model of section 3.  The
    row gets the next id of the sequence and holds the two texts and the two
    integers as they were given; values of another kind are an insert
    failure and leave the store as it was.  Other stores may take more;
    [create_question] is stated for any of them. *)
Definition insert (st : Store) (question answer category difficulty : json)
  : result (Store * Question.t) :=
  match question, answer, category, difficulty with
  | JStr q, JStr a, JInt c, JInt d =>
      let row := Question.mk (next_question_id st) q a c d in
      Done (mkStore (question_table st ++ [row]) (category_table st)
                    (next_question_id st + 1), row)
  | _, _, _, _ => Raises StoreError
  end.

(** Modelled from the spec: [delete()] of models.py; the row with the
    question's id leaves the table. *)
Definition delete (st : Store) (q : Question.t) : Store :=
  mkStore (filter (fun r => negb (Question.id r =? Question.id q)) (question_table st))
          (category_table st) (next_question_id st).

End Db.

Definition len {A : Type} (l : list A) : Z := Z.of_nat (List.length l).

(** A dict under construction: assigning to a key that is there replaces its
    value in place. *)
Fixpoint dict_set (d : list (string * json)) (k : string) (v : json)
  : list (string * json) :=
  match d with
  | [] => [(k, v)]
  | (k', v') :: d' =>
      if String.eqb k k' then (k, v) :: d' else (k', v') :: dict_set d' k v
  end.

(* ------------------------------------------------------------------ *)
(** ** create_app: the endpoints *)
(* ------------------------------------------------------------------ *)

Section App.

(** Python's text for a list or a dict inside an f-string. *)
Variable repr_container : json -> string.

(** The number [random.randrange(a, b)] hands back. *)
Variable randrange : Z -> Z -> Z.

(** [Question(question=..., answer=..., category=..., difficulty=...)]
    followed by [insert()]: models.py is not at hand, so what the store does
    with the four values, and when it refuses them, is left open here.  The
    result is the store after the insert and the row with its id. *)
Variable insert :
  Store -> json -> json -> json -> json -> result (Store * Question.t).

(** [f'{v}']. *)
Definition format_value (v : json) : string :=
  match v with
  | JNull => "None"
  | JBool true => "True"
  | JBool false => "False"
  | JInt z => Py.str_of_int z
  | JStr s => s
  | _ => repr_container v
  end.

Definition get_catgories (st : Store) : result json :=
  let categories := Db.order_by_type (category_table st) in
  if len categories =? 0 then abort 404
  else
    Done (JObj [ ("success", JBool true);
                 ("categories",
                  JObj (fold_left
                          (fun d category =>
                             dict_set d (Py.str_of_int (Category.id category))
                                        (JStr (Category.type category)))
                          categories [])) ]).

Definition get_questions (st : Store) (request : Request) : result json :=
  let selection := Db.order_by_id (question_table st) in
  let current_questions := paginate_questions request selection in
  if len current_questions =? 0 then abort 404
  else
    Done (JObj [ ("success", JBool true);
                 ("questions", JList current_questions);
                 ("total_questions", JInt (len (question_table st))) ]).

Definition delete_question (st : Store) (request : Request) (question_id : Z)
  : Store * result json :=
  match
    Db.one_or_none
      (filter (fun q => Question.id q =? question_id) (question_table st))
  with
  | Done (Some question) =>
      let st' := Db.delete st question in
      let selection := Db.order_by_id (question_table st') in
      let current_questions := paginate_questions request selection in
      (st', Done (JObj [ ("success", JBool true);
                         ("deleted", JInt question_id);
                         ("questions", JList current_questions);
                         ("total_questions", JInt (len (question_table st'))) ]))
  | Done None =>
      (* question.delete() on None raises AttributeError *)
      (st, try_except (Raises AttributeError) (abort 422))
  | Raises e => (st, try_except (Raises e) (abort 422))
  end.

Definition create_question (st : Store) (request : Request)
  : Store * result json :=
  let body := body request in
  match
    new_question <- PyObj.get body "question" ;;
    new_answer <- PyObj.get body "answer" ;;
    new_category <- PyObj.get body "category" ;;
    new_difficulty <- PyObj.get body "difficulty" ;;
    Done (new_question, new_answer, new_category, new_difficulty)
  with
  | Raises e => (st, Raises e)
  | Done (new_question, new_answer, new_category, new_difficulty) =>
      if negb (PyObj.has body "question" && PyObj.has body "answer"
               && PyObj.has body "difficulty" && PyObj.has body "category")
      then (st, abort 422)
      else
        match insert st new_question new_answer new_category new_difficulty with
        | Done (st', question) =>
            let selection := Db.order_by_id (question_table st') in
            let current_questions := paginate_questions request selection in
            (st', Done (JObj [ ("success", JBool true);
                               ("created", JInt (Question.id question));
                               ("questions", JList current_questions);
                               ("total_questions", JInt (len (question_table st'))) ]))
        | Raises e => (st, try_except (Raises e) (abort 422))
        end
  end.

Definition search_questions (st : Store) (request : Request) : result json :=
  search_term <- PyObj.get (body request) "searchTerm" ;;
  try_except
    (let pattern := String.append "%" (String.append (format_value search_term) "%") in
     let questions :=
       filter (fun q => Db.ilike (Question.question q) pattern) (question_table st) in
     let current_questions := paginate_questions request questions in
     if len questions =? 0 then abort 404
     else
       Done (JObj [ ("success", JBool true);
                    ("questions", JList current_questions);
                    ("total_questions", JInt (len (question_table st))) ]))
    (abort 404).

Definition get_questions_by_category (st : Store) (request : Request) (id : Z)
  : result json :=
  try_except
    (category <- Db.one_or_none
                   (filter (fun c => Category.id c =? id) (category_table st)) ;;
     match category with
     | None => abort 404
     | Some category =>
         let questions :=
           filter (fun q => Question.category q =? id) (question_table st) in
         let current_questions := paginate_questions request questions in
         Done (JObj [ ("success", JBool true);
                      ("questions", JList current_questions);
                      ("total_questions", JInt (len questions));
                      ("current_category", JStr (Category.type category)) ])
     end)
    (abort 404).

(** The [if quiz_category['id'] == 0: ... else: ...] of [play_quiz]: the rows
    the quiz may draw from. *)
Definition quiz_candidates (st : Store) (category_id previous_questions : json)
  : result (list Question.t) :=
  if PyObj.eq_zero category_id then
    previous <- Db.id_list previous_questions ;;
    Done (filter (fun q => Db.notin_ (Question.id q) previous) (question_table st))
  else
    c <- Db.int_param category_id ;;
    previous <- Db.id_list previous_questions ;;
    Done (filter (fun q => Db.notin_ (Question.id q) previous)
                 (filter (fun q => Db.eq_param (Question.category q) c)
                         (question_table st))).

Definition play_quiz (st : Store) (request : Request) : result json :=
  quiz_category <- PyObj.get (body request) "quiz_category" ;;
  previous_questions <- PyObj.get (body request) "previous_questions" ;;
  if PyObj.is_none quiz_category || PyObj.is_none previous_questions
  then abort 400
  else
    category_id <- PyObj.getitem quiz_category "id" ;;
    questions <- quiz_candidates st category_id previous_questions ;;
    next_question <-
      (if 0 <? len questions
       then q <- PyObj.index questions (randrange 0 (len questions)) ;;
            Done (Question.format q)
       else Done JNull) ;;
    Done (JObj [ ("success", JBool true);
                 ("question", next_question) ]).

End App.

(* ------------------------------------------------------------------ *)
(** ** Error handlers *)
(* ------------------------------------------------------------------ *)

Definition not_found : json * Z :=
  (JObj [ ("success", JBool false);
          ("error", JInt 404);
          ("message", JStr "resource not found") ], 404).

Definition unprocessable : json * Z :=
  (JObj [ ("success", JBool false);
          ("error", JInt 422);
          ("message", JStr "unprocessable") ], 422).

Definition bad_request : json * Z :=
  (JObj [ ("success", JBool false);
          ("error", JInt 400);
          ("message", JStr "bad request") ], 400).

(** The handlers registered with [@app.errorhandler]. *)
Definition errorhandler (code : Z) : option (json * Z) :=
  if code =? 404 then Some not_found
  else if code =? 422 then Some unprocessable
  else if code =? 400 then Some bad_request
  else None.

(** What the client gets: the JSON payload, when there is one, and the HTTP
    status.  An [abort] without a registered handler and an exception nobody
    caught end in the framework's own page. *)
Record Response : Type := mkResponse {
  payload : option json;
  status : Z
}.

Definition respond (r : result json) : Response :=
  match r with
  | Done j => mkResponse (Some j) 200
  | Raises (HTTPException code) =>
      match errorhandler code with
      | Some (j, s) => mkResponse (Some j) s
      | None => mkResponse None code
      end
  | Raises _ => mkResponse None 500
  end.

(** A key of a JSON object. *)
Definition field (k : string) (j : json) : option json :=
  match j with
  | JObj kv => Py.assoc k kv
  | _ => None
  end.

(* ------------------------------------------------------------------ *)
(** ** Notions used in the statements *)
(* ------------------------------------------------------------------ *)

(** Ascending by id. *)
Definition ascending_by_id : list Question.t -> Prop :=
  Sorted (fun a b => Question.id a <= Question.id b).

(** The envelope the specification describes:
    [{success: false, error: <status>, message: <text>}]. *)
Definition envelope (status : Z) (message : string) : json :=
  JObj [ ("success", JBool false);
         ("error", JInt status);
         ("message", JStr message) ].

Definition has_id (question_id : Z) (q : Question.t) : bool :=
  Question.id q =? question_id.

(** The value a JSON object gives for a key: [body.get(k, None)]. *)
Definition body_value (kv : list (string * json)) (k : string) : json :=
  match Py.assoc k kv with Some x => x | None => JNull end.

(** All four keys of a new question are in the body. *)
Definition required_keys_present (kv : list (string * json)) : Prop :=
  Py.assoc "question" kv <> None /\ Py.assoc "answer" kv <> None
  /\ Py.assoc "category" kv <> None /\ Py.assoc "difficulty" kv <> None.

(** No two rows share an id. *)
Definition unique_category_ids (st : Store) : Prop :=
  NoDup (map Category.id (category_table st)).

Definition unique_question_ids (st : Store) : Prop :=
  NoDup (map Question.id (question_table st)).

(** The message the specification pairs with each status. *)
Definition error_message (code : Z) : option string :=
  if code =? 400 then Some "bad request"
  else if code =? 422 then Some "unprocessable"
  else if code =? 404 then Some "resource not found"
  else None.

(** The handler ended in [abort(code)]. *)
Definition raises_http (r : result json) (code : Z) : Prop :=
  r = Raises (HTTPException code).

(** A row the quiz may serve: not asked before and, unless the category is
    the sentinel 0, of the requested category. *)
Definition quiz_candidate (category_id : Z) (previous : list Z) (q : Question.t)
  : Prop :=
  ~ In (Question.id q) previous
  /\ (category_id = 0 \/ Question.category q = category_id).

(** "Contains the term as a case-insensitive substring", in the words of the
    specification: after folding the case of both texts, the term occurs
    somewhere in the text. *)
Definition occurs_in (t s : list ascii) : Prop :=
  exists before after, s = before ++ t ++ after.

Definition contains_ignoring_case (term text : string) : Prop :=
  occurs_in (Db.lower_text term) (Db.lower_text text).

(** The same as a test. *)
Fixpoint starts_with (t s : list ascii) : bool :=
  match t, s with
  | [], _ => true
  | _ :: _, [] => false
  | c :: t', d :: s' => Ascii.eqb c d && starts_with t' s'
  end.

Fixpoint occurs_inb (t s : list ascii) : bool :=
  starts_with t s || match s with [] => false | _ :: s' => occurs_inb t s' end.

Definition contains_ci (term text : string) : bool :=
  occurs_inb (Db.lower_text term) (Db.lower_text text).

(** A character that LIKE reads as itself; the backslash is kept out as
    well, since a store may read it as an escape. *)
Definition plain_char (c : ascii) : Prop :=
  c <> "%"%char /\ c <> "_"%char /\ c <> "\"%char.

Definition plain_term (term : string) : Prop :=
  Forall plain_char (list_ascii_of_string term).

(** The answer of the search endpoint for a given list of matches. *)
Definition search_answer (st : Store) (request : Request)
           (matches : list Question.t) : result json :=
  match matches with
  | [] => abort 404
  | _ :: _ =>
      Done (JObj [ ("success", JBool true);
                   ("questions", JList (paginate_questions request matches));
                   ("total_questions", JInt (len (question_table st))) ])
  end.

(* ------------------------------------------------------------------ *)
(** ** Sample data *)
(* ------------------------------------------------------------------ *)

Definition sample_categories : list Category.t :=
  [ Category.mk 1 "Science"; Category.mk 2 "Art"; Category.mk 3 "Geography" ].

Definition trivia_store : Store :=
  mkStore
    [ Question.mk 1 "What is the title of the 1990 fantasy directed by Tim Burton?"
                  "Edward Scissorhands" 1 3;
      Question.mk 2 "Which two planets have none of the known moons?"
                  "Mercury and Venus" 1 2;
      Question.mk 3 "What is the largest lake in Africa?" "Lake Victoria" 3 2 ]
    sample_categories 4.

Definition numbered_question (i : Z) : Question.t :=
  Question.mk i "Which planet is nearest the sun?" "Mercury" 1 2.

Definition twelve_questions : Store :=
  mkStore (map numbered_question [1; 2; 3; 4; 5; 6; 7; 8; 9; 10; 11; 12])
          sample_categories 13.

(** Some rendering of lists and dicts, for the examples; none of them sends
    a container as search term. *)
Definition repr_any (v : json) : string := "...".

(** A generator that always hands back the lower bound. *)
Definition lowest (a b : Z) : Z := a.

Definition page_request (page : string) : Request :=
  mkRequest [("page", page)] JNull.

Definition body_request (kv : list (string * json)) : Request :=
  mkRequest [] (JObj kv).

(** A store that takes whatever it is given: a value that is not a text is
    filed as the empty text, one that is not an integer as 0. *)
Definition insert_anything (st : Store) (question answer category difficulty : json)
  : result (Store * Question.t) :=
  let text v := match v with JStr s => s | _ => EmptyString end in
  let number v := match v with JInt z => z | _ => 0 end in
  let row := Question.mk (next_question_id st) (text question) (text answer)
                         (number category) (number difficulty) in
  Done (mkStore (question_table st ++ [row]) (category_table st)
                (next_question_id st + 1), row).

(* ------------------------------------------------------------------ *)
(** ** Further notions: rows of a page, requests by number *)
(* ------------------------------------------------------------------ *)

(** The rows behind the page that [paginate_questions] formats. *)
Definition current_rows (request : Request) (selection : list Question.t)
  : list Question.t :=
  Py.slice selection
           ((requested_page request - 1) * QUESTIONS_PER_PAGE)
           ((requested_page request - 1) * QUESTIONS_PER_PAGE + QUESTIONS_PER_PAGE).

(** The request [?page=<p>], the page written as a decimal numeral. *)
Definition numbered_page (p : Z) : Request :=
  page_request (Py.str_of_int p).

(** The body [{quiz_category: {id: c}, previous_questions: [...]}]. *)
Definition quiz_request (category_id : Z) (previous : list Z) : Request :=
  body_request [ ("quiz_category", JObj [("id", JInt category_id)]);
                 ("previous_questions", JList (map JInt previous)) ].

(** The pattern the search endpoint hands to [ilike] for a term. *)
Definition search_pattern (repr : json -> string) (term : json) : string :=
  String.append "%" (String.append (format_value repr term) "%").

Definition search_matches (repr : json -> string) (st : Store) (term : json)
  : list Question.t :=
  filter (fun q => Db.ilike (Question.question q) (search_pattern repr term))
         (question_table st).

(** A JSON object, the only kind of body with a [get] method. *)
Definition is_object (v : json) : bool :=
  match v with JObj _ => true | _ => false end.

(** The questions of a category. *)
Definition in_category (id : Z) (st : Store) : list Question.t :=
  filter (fun q => Question.category q =? id) (question_table st).

(** The rows formatted in a [questions] array. *)
Definition lists_rows (j : json) (rows : list Question.t) : Prop :=
  field "questions" j = Some (JList (map Question.format rows)).

(** A store of n questions with the ids 1 to n. *)
Definition numbered_store (n : nat) : Store :=
  mkStore (map (fun i => numbered_question (Z.of_nat i)) (seq 1 n))
          sample_categories (Z.of_nat n + 1).

(** The rows a quiz of a category may draw from, before the questions
    already asked are taken out. *)
Definition quiz_pool (st : Store) (category_id : Z) : list Question.t :=
  if category_id =? 0 then question_table st
  else filter (fun q => Question.category q =? category_id) (question_table st).

(** The answer of the quiz when nothing is left to ask. *)
Definition quiz_over : json :=
  JObj [ ("success", JBool true); ("question", JNull) ].

(** The dict that [get_catgories] builds from the rows, id to type. *)
Definition category_dict (rows : list Category.t) : list (string * json) :=
  fold_left (fun d category =>
               dict_set d (Py.str_of_int (Category.id category))
                          (JStr (Category.type category)))
            rows [].

(** The results of the seven endpoints on a request; [i] is the number in
    the path, for the two endpoints that have one. *)
Definition endpoints (repr : json -> string) (randrange : Z -> Z -> Z)
           (insert : Store -> json -> json -> json -> json
                     -> result (Store * Question.t))
           (st : Store) (request : Request) (i : Z) : list (result json) :=
  [ get_catgories st;
    get_questions st request;
    snd (delete_question st request i);
    snd (create_question insert st request);
    search_questions repr st request;
    get_questions_by_category st request i;
    play_quiz randrange st request ].








Unset Implicit Arguments.

(* ------------------------------------------------------------------ *)
(** ** Python primitives on examples *)
(* ------------------------------------------------------------------ *)

Example int_plain : Py.int "12" = Some 12. Proof. reflexivity. Qed.
Example int_spaces : Py.int "  -7 " = Some (-7). Proof. reflexivity. Qed.
Example int_underscore : Py.int "1_000" = Some 1000. Proof. reflexivity. Qed.
Example int_bad1 : Py.int "1__0" = None. Proof. reflexivity. Qed.
Example int_bad2 : Py.int "abc" = None. Proof. reflexivity. Qed.
Example int_bad3 : Py.int "" = None. Proof. reflexivity. Qed.
Example str_int : Py.str_of_int (-30) = "-30". Proof. reflexivity. Qed.
Example str_int0 : Py.str_of_int 0 = "0". Proof. reflexivity. Qed.
Example slice_neg : Py.slice [1;2;3;4;5] (-3) (-1) = [3;4]. Proof. reflexivity. Qed.
Example slice_out : Py.slice [1;2;3;4;5] 10 20 = []. Proof. reflexivity. Qed.
Example slice_zero : Py.slice [1;2;3;4;5] (-10) 0 = []. Proof. reflexivity. Qed.

(* ------------------------------------------------------------------ *)
(** ** Pagination: the slice and its length *)
(* ------------------------------------------------------------------ *)

Section SliceFacts.

Context {A : Type}.
Implicit Types (l : list A) (start stop n i : Z).

Lemma slice_index_range n i : 0 <= n -> 0 <= Py.slice_index n i <= n.
Proof.
  intros Hn. unfold Py.slice_index.
  destruct (i <? 0) eqn:E; [apply Z.ltb_lt in E | apply Z.ltb_ge in E]; lia.
Qed.

Lemma slice_length l start stop :
  Z.of_nat (List.length (Py.slice l start stop)) =
  Z.max 0 (Py.slice_index (Z.of_nat (List.length l)) stop
           - Py.slice_index (Z.of_nat (List.length l)) start).
Proof.
  unfold Py.slice.
  set (n := Z.of_nat (List.length l)).
  assert (Hn : 0 <= n) by (subst n; lia).
  pose proof (slice_index_range n start Hn) as Hlo.
  pose proof (slice_index_range n stop Hn) as Hhi.
  rewrite length_firstn, length_skipn. subst n. lia.
Qed.

(** From a start that is not negative the slice is the usual window. *)
Lemma slice_window l start k :
  0 <= start -> 0 <= k ->
  Py.slice l start (start + k) = firstn (Z.to_nat k) (skipn (Z.to_nat start) l).
Proof.
  intros Hs Hk. unfold Py.slice, Py.slice_index.
  set (n := Z.of_nat (List.length l)).
  assert (Hn : 0 <= n) by (subst n; lia).
  destruct (start <? 0) eqn:E1; [apply Z.ltb_lt in E1; lia | clear E1].
  destruct (start + k <? 0) eqn:E2; [apply Z.ltb_lt in E2; lia | clear E2].
  destruct (Z.le_gt_cases n start) as [Hout | Hin].
  - rewrite (Z.min_r start n) by lia.
    rewrite !skipn_all2 by (subst n; lia).
    now rewrite !firstn_nil.
  - rewrite (Z.min_l start n) by lia.
    destruct (Z.le_gt_cases (start + k) n) as [Hfit | Hcut].
    + rewrite Z.min_l by lia. f_equal. lia.
    + rewrite Z.min_r by lia.
      rewrite !firstn_all2; try reflexivity;
        rewrite length_skipn; subst n; lia.
Qed.

End SliceFacts.

Lemma requested_page_default request :
  Py.assoc "page" (args request) = None -> requested_page request = 1.
Proof. unfold requested_page, args_get_int. now intros ->. Qed.

Lemma requested_page_malformed request v :
  Py.assoc "page" (args request) = Some v -> Py.int v = None ->
  requested_page request = 1.
Proof. unfold requested_page, args_get_int. now intros -> ->. Qed.

Lemma requested_page_parsed request v p :
  Py.assoc "page" (args request) = Some v -> Py.int v = Some p ->
  requested_page request = p.
Proof. unfold requested_page, args_get_int. now intros -> ->. Qed.

Lemma paginate_questions_length request selection :
  Z.of_nat (List.length (paginate_questions request selection)) <= 10.
Proof.
  unfold paginate_questions. rewrite slice_length, length_map.
  set (n := Z.of_nat (List.length selection)).
  set (start := (requested_page request - 1) * QUESTIONS_PER_PAGE).
  unfold QUESTIONS_PER_PAGE, Py.slice_index in *.
  destruct (start + 10 <? 0) eqn:E2; destruct (start <? 0) eqn:E1;
    try apply Z.ltb_lt in E1; try apply Z.ltb_lt in E2;
    try apply Z.ltb_ge in E1; try apply Z.ltb_ge in E2; lia.
Qed.

Lemma paginate_questions_window request selection :
  1 <= requested_page request ->
  paginate_questions request selection =
  firstn 10 (skipn (Z.to_nat ((requested_page request - 1) * 10))
                   (map Question.format selection)).
Proof.
  intros Hp. unfold paginate_questions, QUESTIONS_PER_PAGE.
  rewrite slice_window by lia. reflexivity.
Qed.

(** C1. For the page number p read from the 'page' query parameter (1 when
    the parameter is missing) and any selection, [paginate_questions] returns
    the slice [(p-1)*10 : (p-1)*10+10] of the formatted selection; the slice
    never has more than 10 items, and for a page p >= 1 it is the window of 10
    items after the first (p-1)*10 and its length is
    min(10, max(0, total - (p-1)*10)). *)
Theorem paginate_questions_spec (request : Request) (selection : list Question.t) :
  let p := requested_page request in
  let total := Z.of_nat (List.length selection) in
  let current := paginate_questions request selection in
  (Py.assoc "page" (args request) = None -> p = 1)
  /\ current = Py.slice (map Question.format selection)
                        ((p - 1) * 10) ((p - 1) * 10 + 10)
  /\ Z.of_nat (List.length current) <= 10
  /\ (1 <= p ->
      current = firstn 10 (skipn (Z.to_nat ((p - 1) * 10))
                                 (map Question.format selection))
      /\ Z.of_nat (List.length current) = Z.min 10 (Z.max 0 (total - (p - 1) * 10))).
Proof.
  cbv zeta. split; [apply requested_page_default|].
  split; [reflexivity|].
  split; [apply paginate_questions_length|].
  intros Hp. split; [now apply paginate_questions_window|].
  rewrite paginate_questions_window by assumption.
  rewrite length_firstn, length_skipn, length_map. lia.
Qed.

(* ------------------------------------------------------------------ *)
(** ** order_by: a sorted rearrangement of the rows *)
(* ------------------------------------------------------------------ *)

Section OrderBy.

Context {A : Type} (key : A -> Z).

Local Abbreviation le := (fun a b : A => key a <=? key b).
Local Abbreviation lep := (fun a b : A => key a <= key b).

Lemma insert_by_perm x l : Permutation (Db.insert_by le x l) (x :: l).
Proof.
  induction l as [|y l IH]; simpl; [reflexivity|].
  destruct (key x <=? key y); [reflexivity|].
  rewrite IH. apply perm_swap.
Qed.

Lemma order_by_perm l : Permutation (Db.order_by le l) l.
Proof.
  induction l as [|x l IH]; simpl; [constructor|].
  rewrite insert_by_perm. now constructor.
Qed.

Lemma insert_by_hd x y l :
  lep y x -> HdRel lep y l -> HdRel lep y (Db.insert_by le x l).
Proof.
  intros Hyx Hhd. destruct l as [|z l]; simpl; [now constructor|].
  destruct (key x <=? key z); constructor; [assumption|].
  now inversion Hhd.
Qed.

Lemma insert_by_sorted x l :
  Sorted lep l -> Sorted lep (Db.insert_by le x l).
Proof.
  induction 1 as [|y l Hs IH Hhd]; simpl.
  - repeat constructor.
  - destruct (key x <=? key y) eqn:E.
    + apply Z.leb_le in E. repeat constructor; assumption.
    + apply Z.leb_gt in E. constructor; [exact IH|].
      apply insert_by_hd; [lia | exact Hhd].
Qed.

Lemma order_by_sorted l : Sorted lep (Db.order_by le l).
Proof.
  induction l as [|x l IH]; simpl; [constructor|].
  now apply insert_by_sorted.
Qed.

End OrderBy.

Lemma order_by_id_perm l : Permutation (Db.order_by_id l) l.
Proof. apply (order_by_perm Question.id). Qed.

Lemma order_by_id_sorted l : ascending_by_id (Db.order_by_id l).
Proof. apply (order_by_sorted Question.id). Qed.

Lemma order_by_id_length l : List.length (Db.order_by_id l) = List.length l.
Proof. apply Permutation_length, order_by_id_perm. Qed.

Lemma len_zero_nil {A : Type} (l : list A) : (len l =? 0) = true <-> l = [].
Proof.
  unfold len. rewrite Z.eqb_eq. destruct l; simpl; split; intros; try easy; lia.
Qed.

Lemma len_zero_cons {A : Type} (l : list A) : (len l =? 0) = false <-> l <> [].
Proof.
  rewrite <- len_zero_nil. destruct (len l =? 0); split; congruence.
Qed.

(* ------------------------------------------------------------------ *)
(** ** The error envelope *)
(* ------------------------------------------------------------------ *)

Lemma respond_404 :
  respond (abort 404) = mkResponse (Some (envelope 404 "resource not found")) 404.
Proof. reflexivity. Qed.

Lemma respond_422 :
  respond (abort 422) = mkResponse (Some (envelope 422 "unprocessable")) 422.
Proof. reflexivity. Qed.

Lemma respond_400 :
  respond (abort 400) = mkResponse (Some (envelope 400 "bad request")) 400.
Proof. reflexivity. Qed.

(* ------------------------------------------------------------------ *)
(** ** GET /questions *)
(* ------------------------------------------------------------------ *)

Lemma paginate_beyond request selection :
  1 <= requested_page request ->
  len selection <= (requested_page request - 1) * 10 ->
  paginate_questions request selection = [].
Proof.
  intros Hp Hout. rewrite paginate_questions_window by assumption.
  rewrite skipn_all2; [apply firstn_nil|].
  rewrite length_map. unfold len in Hout. lia.
Qed.

(** C6. GET /questions answers NotFound (404, "resource not found") exactly
    when the slice of the requested page is empty, which is the case whenever
    the page lies beyond the data, questions or not; otherwise it succeeds
    with that slice and the count of all questions. *)
Theorem get_questions_spec (st : Store) (request : Request) :
  let current := paginate_questions request (Db.order_by_id (question_table st)) in
  (get_questions st request = abort 404 <-> current = [])
  /\ (current = [] ->
      respond (get_questions st request) =
      mkResponse (Some (envelope 404 "resource not found")) 404)
  /\ (1 <= requested_page request ->
      len (question_table st) <= (requested_page request - 1) * 10 ->
      current = [])
  /\ (current <> [] ->
      get_questions st request =
      Done (JObj [ ("success", JBool true);
                   ("questions", JList current);
                   ("total_questions", JInt (len (question_table st))) ])).
Proof.
  cbv zeta. unfold get_questions.
  set (current := paginate_questions request (Db.order_by_id (question_table st))).
  assert (Hbeyond : 1 <= requested_page request ->
                    len (question_table st) <= (requested_page request - 1) * 10 ->
                    current = []).
  { intros Hp Hout. apply paginate_beyond; [assumption|].
    unfold len in *. now rewrite order_by_id_length. }
  destruct (len current =? 0) eqn:E.
  - apply len_zero_nil in E.
    split; [tauto|]. split; [reflexivity|]. split; [exact Hbeyond|]. congruence.
  - apply len_zero_cons in E.
    split; [split; [discriminate | congruence]|].
    split; [congruence|]. split; [exact Hbeyond|]. reflexivity.
Qed.

(* ------------------------------------------------------------------ *)
(** ** DELETE /questions/<id> *)
(* ------------------------------------------------------------------ *)

Lemma filter_split_length {A : Type} (p : A -> bool) (l : list A) :
  (List.length (filter p l) + List.length (filter (fun a => negb (p a)) l)
   = List.length l)%nat.
Proof.
  induction l as [|a l IH]; simpl; [reflexivity|].
  destruct (p a); simpl; lia.
Qed.

Lemma filter_singleton_in {A : Type} (p : A -> bool) (l : list A) (a : A) :
  filter p l = [a] -> In a l /\ p a = true.
Proof.
  intros H. apply filter_In. rewrite H. now left.
Qed.

Lemma delete_table st q question_id :
  Question.id q = question_id ->
  question_table (Db.delete st q) =
  filter (fun r => negb (has_id question_id r)) (question_table st).
Proof. intros <-. reflexivity. Qed.

Lemma delete_question_cases st request question_id :
  match filter (has_id question_id) (question_table st) with
  | [question] =>
      let st' := Db.delete st question in
      delete_question st request question_id =
      (st', Done (JObj [ ("success", JBool true);
                         ("deleted", JInt question_id);
                         ("questions",
                          JList (paginate_questions request
                                   (Db.order_by_id (question_table st'))));
                         ("total_questions", JInt (len (question_table st'))) ]))
  | _ => delete_question st request question_id = (st, abort 422)
  end.
Proof.
  unfold delete_question. fold (has_id question_id).
  destruct (filter (has_id question_id) (question_table st)) as [|q [|q' l]];
    reflexivity.
Qed.

(** C7. DELETE /questions/<id> for an id that no question has answers
    Unprocessable (422), and so does every other failure of the lookup or the
    delete: 422 is the only failure the handler produces, never 404.  On
    success [deleted] is the requested id and [total_questions] is the new
    count, one less than before. *)
Theorem delete_question_spec (st : Store) (request : Request) (question_id : Z) :
  ((forall q, In q (question_table st) -> Question.id q <> question_id) ->
   delete_question st request question_id = (st, abort 422)
   /\ respond (snd (delete_question st request question_id)) =
      mkResponse (Some (envelope 422 "unprocessable")) 422)
  /\ (forall st' e,
        delete_question st request question_id = (st', Raises e) ->
        e = HTTPException 422 /\ st' = st)
  /\ (forall st' j,
        delete_question st request question_id = (st', Done j) ->
        field "success" j = Some (JBool true)
        /\ field "deleted" j = Some (JInt question_id)
        /\ field "total_questions" j = Some (JInt (len (question_table st')))
        /\ len (question_table st') = len (question_table st) - 1
        /\ (forall q, In q (question_table st') -> Question.id q <> question_id)).
Proof.
  pose proof (delete_question_cases st request question_id) as Hc.
  split; [|split].
  - intros Hnone.
    assert (Hf : filter (has_id question_id) (question_table st) = []).
    { destruct (filter (has_id question_id) (question_table st)) as [|q l] eqn:E;
        [reflexivity|].
      assert (Hin : In q (filter (has_id question_id) (question_table st)))
        by (rewrite E; now left).
      apply filter_In in Hin. destruct Hin as [Hin Hid].
      apply Z.eqb_eq in Hid. now apply Hnone in Hin. }
    rewrite Hf in Hc. rewrite Hc. split; reflexivity.
  - intros st' e H.
    destruct (filter (has_id question_id) (question_table st)) as [|q [|q' l]];
      cbv zeta in Hc; rewrite Hc in H; inversion H; subst; auto.
  - intros st' j H.
    destruct (filter (has_id question_id) (question_table st)) as [|q [|q' l]] eqn:E;
      cbv zeta in Hc; rewrite Hc in H; try discriminate.
    inversion H; subst; clear H.
    destruct (filter_singleton_in _ _ _ E) as [_ Hid]. apply Z.eqb_eq in Hid.
    rewrite (delete_table st q question_id Hid).
    split; [reflexivity|]. split; [reflexivity|].
    split; [now rewrite <- (delete_table st q question_id Hid)|].
    split.
    + pose proof (filter_split_length (has_id question_id) (question_table st)) as Hl.
      rewrite E in Hl. simpl in Hl. unfold len. lia.
    + intros r Hr. apply filter_In in Hr. destruct Hr as [_ Hr].
      unfold has_id in Hr. apply negb_true_iff, Z.eqb_neq in Hr. exact Hr.
Qed.

(* ------------------------------------------------------------------ *)
(** ** POST /questions *)
(* ------------------------------------------------------------------ *)

Lemma contains_key_true {V : Type} (k : string) (d : list (string * V)) :
  Py.contains_key k d = true <-> Py.assoc k d <> None.
Proof.
  unfold Py.contains_key. destruct (Py.assoc k d); split; congruence.
Qed.

Lemma required_keys_check kv :
  (Py.contains_key "question" kv && Py.contains_key "answer" kv
   && Py.contains_key "difficulty" kv && Py.contains_key "category" kv) = true
  <-> required_keys_present kv.
Proof.
  unfold required_keys_present.
  rewrite !andb_true_iff, !contains_key_true. tauto.
Qed.

Lemma insert_row st q a c d st' row :
  Db.insert st q a c d = Done (st', row) ->
  Question.id row = next_question_id st
  /\ question_table st' = question_table st ++ [row]
  /\ Question.format row =
     JObj [ ("id", JInt (next_question_id st)); ("question", q); ("answer", a);
            ("category", c); ("difficulty", d) ].
Proof.
  unfold Db.insert.
  destruct q; try discriminate. destruct a; try discriminate.
  destruct c; try discriminate. destruct d; try discriminate.
  intros H. inversion H; subst; clear H. repeat split.
Qed.

Lemma create_question_cases insert st request kv :
  body request = JObj kv ->
  let ins := insert st (body_value kv "question") (body_value kv "answer")
                       (body_value kv "category") (body_value kv "difficulty") in
  create_question insert st request =
  if Py.contains_key "question" kv && Py.contains_key "answer" kv
     && Py.contains_key "difficulty" kv && Py.contains_key "category" kv
  then match ins with
       | Done (st', question) =>
           (st', Done (JObj [ ("success", JBool true);
                              ("created", JInt (Question.id question));
                              ("questions",
                               JList (paginate_questions request
                                        (Db.order_by_id (question_table st'))));
                              ("total_questions", JInt (len (question_table st'))) ]))
       | Raises _ => (st, abort 422)
       end
  else (st, abort 422).
Proof.
  intros Hb. cbv zeta. unfold create_question. rewrite Hb. simpl.
  fold (body_value kv "question") (body_value kv "answer")
       (body_value kv "category") (body_value kv "difficulty").
  destruct (Py.contains_key "question" kv && Py.contains_key "answer" kv
            && Py.contains_key "difficulty" kv && Py.contains_key "category" kv);
    simpl; [|reflexivity].
  destruct (insert _ _ _ _ _) as [[st' question]|e]; reflexivity.
Qed.

(** C8. POST /questions with a JSON object as body, whatever the store does
    with the values handed to the insert: the answer is Unprocessable (422,
    "unprocessable") if and only if one of the keys question, answer,
    category, difficulty is missing or the insert fails.  A missing key is
    Unprocessable before any insert: the store stays as it was even where the
    insert of the values at hand would have succeeded.  With the four keys
    there and a successful insert the response carries [created], the id of
    the row that was added; for the store of the data model that row has the
    next id and stands at the end of the table. *)
Theorem create_question_spec
        (insert : Store -> json -> json -> json -> json -> result (Store * Question.t))
        (st : Store) (request : Request) (kv : list (string * json)) :
  body request = JObj kv ->
  let ins := insert st (body_value kv "question") (body_value kv "answer")
                       (body_value kv "category") (body_value kv "difficulty") in
  (snd (create_question insert st request) = abort 422
   <-> (~ required_keys_present kv \/ exists e, ins = Raises e))
  /\ (~ required_keys_present kv \/ (exists e, ins = Raises e) ->
      fst (create_question insert st request) = st
      /\ respond (snd (create_question insert st request)) =
         mkResponse (Some (envelope 422 "unprocessable")) 422)
  /\ (forall st' row,
        required_keys_present kv -> ins = Done (st', row) ->
        exists j,
          create_question insert st request = (st', Done j)
          /\ field "success" j = Some (JBool true)
          /\ field "created" j = Some (JInt (Question.id row)))
  /\ (forall st' row,
        Db.insert st (body_value kv "question") (body_value kv "answer")
                     (body_value kv "category") (body_value kv "difficulty")
        = Done (st', row) ->
        Question.id row = next_question_id st
        /\ question_table st' = question_table st ++ [row]).
Proof.
  intros Hb. pose proof (create_question_cases insert st request kv Hb) as Hc.
  cbv zeta in *.
  pose proof (required_keys_check kv) as Hk.
  assert (Hmodel : forall st' row,
             Db.insert st (body_value kv "question") (body_value kv "answer")
                          (body_value kv "category") (body_value kv "difficulty")
             = Done (st', row) ->
             Question.id row = next_question_id st
             /\ question_table st' = question_table st ++ [row]).
  { intros st' row E. destruct (insert_row _ _ _ _ _ _ _ E) as (Hid & Htab & _).
    now split. }
  destruct (Py.contains_key "question" kv && Py.contains_key "answer" kv
            && Py.contains_key "difficulty" kv && Py.contains_key "category" kv).
  - assert (Hp : required_keys_present kv) by now apply Hk.
    destruct (insert _ _ _ _ _) as [[st1 question]|e] eqn:E; rewrite Hc; simpl.
    + split; [|split; [|split; [|exact Hmodel]]].
      * split; [discriminate|]. intros [Hn | [e He]]; [tauto | discriminate].
      * intros [Hn | [e He]]; [tauto | discriminate].
      * intros st' row _ H. inversion H; subst; clear H.
        eexists. split; [reflexivity|]. split; reflexivity.
    + split; [|split; [|split; [|exact Hmodel]]].
      * split; [|reflexivity]. intros _. right. now exists e.
      * intros _. split; reflexivity.
      * intros st' row _ H. discriminate.
  - assert (Hp : ~ required_keys_present kv).
    { intros H. apply Hk in H. discriminate. }
    rewrite Hc. simpl. split; [|split; [|split; [|exact Hmodel]]].
    + split; [now left | reflexivity].
    + intros _. split; reflexivity.
    + intros st' row H. tauto.
Qed.

(* ------------------------------------------------------------------ *)
(** ** GET /categories/<id>/questions *)
(* ------------------------------------------------------------------ *)

Lemma filter_none {A : Type} (p : A -> bool) (l : list A) :
  (forall x, In x l -> p x = false) -> filter p l = [].
Proof.
  induction l as [|x l IH]; simpl; intros H; [reflexivity|].
  rewrite (H x) by now left. apply IH. intros y Hy. apply H. now right.
Qed.

Lemma filter_unique_key {A : Type} (key : A -> Z) (l : list A) (a : A) :
  NoDup (map key l) -> In a l ->
  filter (fun x => key x =? key a) l = [a].
Proof.
  induction l as [|x l IH]; simpl; [tauto|].
  intros Hnd Hin. inversion Hnd as [|? ? Hnotin Hnd']; subst.
  destruct Hin as [-> | Hin].
  - rewrite Z.eqb_refl. f_equal. apply filter_none.
    intros y Hy. apply Z.eqb_neq. intros E.
    apply Hnotin. rewrite <- E. now apply in_map.
  - destruct (key x =? key a) eqn:E.
    + apply Z.eqb_eq in E. exfalso. apply Hnotin. rewrite E. now apply in_map.
    + now apply IH.
Qed.

Lemma paginate_nothing request : paginate_questions request [] = [].
Proof.
  unfold paginate_questions, Py.slice. simpl.
  rewrite skipn_nil. apply firstn_nil.
Qed.

(** C10. GET /categories/<id>/questions for an id that a category has
    answers with success: true whatever the questions are: with no question
    in the category, or a page beyond the data, [questions] is the empty
    array and [total_questions] the count of the matching questions (0 when
    there is none); it is not NotFound. *)
Theorem get_questions_by_category_spec
        (st : Store) (request : Request) (id : Z) (category : Category.t) :
  unique_category_ids st ->
  In category (category_table st) ->
  Category.id category = id ->
  let matching := filter (fun q => Question.category q =? id) (question_table st) in
  let current := paginate_questions request matching in
  get_questions_by_category st request id =
  Done (JObj [ ("success", JBool true);
               ("questions", JList current);
               ("total_questions", JInt (len matching));
               ("current_category", JStr (Category.type category)) ])
  /\ status (respond (get_questions_by_category st request id)) = 200
  /\ (matching = [] -> current = [] /\ len matching = 0)
  /\ (1 <= requested_page request ->
      len matching <= (requested_page request - 1) * 10 -> current = []).
Proof.
  intros Hu Hin Hid. cbv zeta.
  assert (Hget : get_questions_by_category st request id =
                 Done (JObj [ ("success", JBool true);
                              ("questions",
                               JList (paginate_questions request
                                        (filter (fun q => Question.category q =? id)
                                                (question_table st))));
                              ("total_questions",
                               JInt (len (filter (fun q => Question.category q =? id)
                                                 (question_table st))));
                              ("current_category", JStr (Category.type category)) ])).
  { unfold get_questions_by_category. subst id.
    rewrite (filter_unique_key Category.id (category_table st) category Hu Hin).
    reflexivity. }
  rewrite Hget. split; [reflexivity|]. split; [reflexivity|]. split.
  - intros ->. split; [apply paginate_nothing | reflexivity].
  - intros Hp Hout. now apply paginate_beyond.
Qed.

(* ------------------------------------------------------------------ *)
(** ** Which failures the handlers produce *)
(* ------------------------------------------------------------------ *)

Lemma bind_raises {A B : Type} (r : result A) (k : A -> result B) (e : exn) :
  (x <- r ;; k x) = Raises e ->
  r = Raises e \/ exists a, r = Done a /\ k a = Raises e.
Proof.
  destruct r as [a|e']; simpl; intros H; [right; now exists a | left; congruence].
Qed.

Lemma try_except_raises {A : Type} (body : result A) (code : Z) (e : exn) :
  try_except body (abort code) = Raises e -> e = HTTPException code.
Proof.
  destruct body; simpl; [discriminate|]. unfold abort. congruence.
Qed.

Lemma get_raises v k e : PyObj.get v k = Raises e -> e = AttributeError.
Proof. destruct v; simpl; congruence. Qed.

Lemma getitem_raises v k e :
  PyObj.getitem v k = Raises e -> e = KeyError \/ e = TypeError.
Proof.
  destruct v; simpl; try (intros Hr; inversion Hr; now auto).
  destruct (Py.assoc k kv); intros Hr; inversion Hr; auto.
Qed.

Lemma index_raises {A : Type} (l : list A) i e :
  PyObj.index l i = Raises e -> e = IndexError.
Proof.
  unfold PyObj.index.
  destruct (_ && _); [destruct (nth_error _ _)|]; congruence.
Qed.

Lemma int_param_raises v e : Db.int_param v = Raises e -> e = StoreError.
Proof.
  destruct v; simpl; try congruence.
  destruct (Db.int_of_text s); congruence.
Qed.

Lemma int_params_raises l e : Db.int_params l = Raises e -> e = StoreError.
Proof.
  induction l as [|v l IH]; simpl; [discriminate|].
  intros H. apply bind_raises in H. destruct H as [H | (x & _ & H)].
  - now apply int_param_raises in H.
  - apply bind_raises in H. destruct H as [H | (xs & _ & H)]; [auto | discriminate].
Qed.

Lemma id_list_raises v e : Db.id_list v = Raises e -> e = StoreError.
Proof. destruct v; simpl; try congruence. apply int_params_raises. Qed.

Lemma quiz_candidates_raises st c p e :
  quiz_candidates st c p = Raises e -> e = StoreError.
Proof.
  unfold quiz_candidates. destruct (PyObj.eq_zero c); intros H.
  - apply bind_raises in H. destruct H as [H | (x & _ & H)];
      [now apply id_list_raises in H | discriminate].
  - apply bind_raises in H. destruct H as [H | (x & _ & H)];
      [now apply int_param_raises in H|].
    apply bind_raises in H. destruct H as [H | (y & _ & H)];
      [now apply id_list_raises in H | discriminate].
Qed.

Lemma play_quiz_raises randrange st request code :
  raises_http (play_quiz randrange st request) code -> code = 400.
Proof.
  unfold raises_http, play_quiz. intros H.
  apply bind_raises in H. destruct H as [H | (qc & _ & H)];
    [apply get_raises in H; discriminate|].
  apply bind_raises in H. destruct H as [H | (pq & _ & H)];
    [apply get_raises in H; discriminate|].
  destruct (PyObj.is_none qc || PyObj.is_none pq);
    [unfold abort in H; congruence|].
  apply bind_raises in H. destruct H as [H | (c & _ & H)];
    [apply getitem_raises in H; destruct H; discriminate|].
  apply bind_raises in H. destruct H as [H | (qs & _ & H)];
    [apply quiz_candidates_raises in H; discriminate|].
  apply bind_raises in H. destruct H as [H | (nq & _ & H)]; [|discriminate].
  destruct (0 <? len qs); [|discriminate].
  apply bind_raises in H. destruct H as [H | (q & _ & H)];
    [apply index_raises in H; discriminate | discriminate].
Qed.

Lemma search_questions_raises repr st request code :
  raises_http (search_questions repr st request) code -> code = 404.
Proof.
  unfold raises_http, search_questions. intros H.
  apply bind_raises in H. destruct H as [H | (t & _ & H)];
    [apply get_raises in H; discriminate|].
  apply try_except_raises in H. congruence.
Qed.

Lemma create_question_raises insert st request code :
  raises_http (snd (create_question insert st request)) code -> code = 422.
Proof.
  unfold raises_http. destruct (body request) as [| | | | |kv] eqn:Hb;
    try (unfold create_question; rewrite Hb; simpl; discriminate).
  rewrite (create_question_cases insert st request kv Hb).
  destruct (_ && _); [|simpl; unfold abort; congruence].
  destruct (insert _ _ _ _ _) as [[st' q]|e]; simpl;
    [discriminate | unfold abort; congruence].
Qed.

Lemma delete_question_raises st request question_id code :
  raises_http (snd (delete_question st request question_id)) code -> code = 422.
Proof.
  unfold raises_http.
  pose proof (delete_question_cases st request question_id) as Hc.
  destruct (filter (has_id question_id) (question_table st)) as [|q [|q' l]];
    cbv zeta in Hc; rewrite Hc; simpl; unfold abort; congruence.
Qed.

(** C9. Whatever handler raised it, an error response is the envelope
    [{success: false, error: <status>, message: <text>}] with the fixed
    pairs 400 "bad request", 422 "unprocessable", 404 "resource not found":
    the three registered handlers return exactly these, and every [abort] of
    every endpoint is one of the three. *)
Theorem error_envelope :
  errorhandler 400 = Some (envelope 400 "bad request", 400)
  /\ errorhandler 422 = Some (envelope 422 "unprocessable", 422)
  /\ errorhandler 404 = Some (envelope 404 "resource not found", 404)
  /\ (forall (r : result json) (code : Z) (message : string),
        raises_http r code -> error_message code = Some message ->
        respond r = mkResponse (Some (envelope code message)) code)
  /\ (forall repr randrange insert st request i (r : result json) (code : Z),
        In r [ get_catgories st;
               get_questions st request;
               snd (delete_question st request i);
               snd (create_question insert st request);
               search_questions repr st request;
               get_questions_by_category st request i;
               play_quiz randrange st request ] ->
        raises_http r code ->
        exists message,
          error_message code = Some message
          /\ respond r = mkResponse (Some (envelope code message)) code).
Proof.
  assert (Hpair : forall (r : result json) (code : Z) (message : string),
             raises_http r code -> error_message code = Some message ->
             respond r = mkResponse (Some (envelope code message)) code).
  { intros r code message -> Hm. unfold error_message in Hm. simpl.
    unfold errorhandler.
    destruct (code =? 404) eqn:E1.
    - apply Z.eqb_eq in E1. subst code. simpl in Hm. inversion Hm. reflexivity.
    - destruct (code =? 422) eqn:E2.
      + apply Z.eqb_eq in E2. subst code. simpl in Hm. inversion Hm. reflexivity.
      + destruct (code =? 400) eqn:E3; [|discriminate].
        apply Z.eqb_eq in E3. subst code. simpl in Hm. inversion Hm. reflexivity. }
  split; [reflexivity|]. split; [reflexivity|]. split; [reflexivity|].
  split; [exact Hpair|].
  intros repr randrange insert st request i r code Hin Hr.
  assert (Hcode : code = 400 \/ code = 422 \/ code = 404).
  { simpl in Hin.
    destruct Hin as [<-|[<-|[<-|[<-|[<-|[<-|[<-|[]]]]]]]].
    - unfold raises_http, get_catgories in Hr.
      destruct (_ =? 0); [unfold abort in Hr; inversion Hr; auto | discriminate].
    - unfold raises_http, get_questions in Hr.
      destruct (_ =? 0); [unfold abort in Hr; inversion Hr; auto | discriminate].
    - apply delete_question_raises in Hr. auto.
    - apply create_question_raises in Hr. auto.
    - apply search_questions_raises in Hr. auto.
    - unfold raises_http, get_questions_by_category in Hr.
      apply try_except_raises in Hr. inversion Hr. auto.
    - apply play_quiz_raises in Hr. auto. }
  destruct Hcode as [-> | [-> | ->]]; eexists; (split; [reflexivity|]);
    now apply Hpair.
Qed.

(* ------------------------------------------------------------------ *)
(** ** POST /quizzes *)
(* ------------------------------------------------------------------ *)

Lemma int_params_ints previous :
  Db.int_params (map JInt previous) = Done (map Some previous).
Proof.
  induction previous as [|x l IH]; simpl; [reflexivity|].
  now rewrite IH.
Qed.

Lemma notin_ints x previous :
  Db.notin_ x (map Some previous) = true <-> ~ In x previous.
Proof.
  unfold Db.notin_. induction previous as [|y l IH]; simpl; [tauto|].
  rewrite andb_true_iff, IH, negb_true_iff, Z.eqb_neq.
  split; [intros [H1 H2] [H | H]; congruence || tauto | intros H; split; auto].
Qed.

Lemma quiz_candidates_ints st category_id previous :
  exists candidates,
    quiz_candidates st (JInt category_id) (JList (map JInt previous)) = Done candidates
    /\ (forall q, In q candidates <->
                  In q (question_table st) /\ quiz_candidate category_id previous q)
    /\ (NoDup (question_table st) -> NoDup candidates).
Proof.
  unfold quiz_candidates, quiz_candidate. simpl.
  rewrite int_params_ints. simpl.
  destruct (category_id =? 0) eqn:E; eexists; (split; [reflexivity|]); split.
  - apply Z.eqb_eq in E. intros q. rewrite filter_In, notin_ints. tauto.
  - apply NoDup_filter.
  - apply Z.eqb_neq in E. intros q. rewrite !filter_In, notin_ints. simpl.
    rewrite Z.eqb_eq. split; [tauto|]. intros (H1 & H2 & [H3 | H3]); tauto.
  - intros H. now apply NoDup_filter, NoDup_filter.
Qed.

Lemma index_in_range {A : Type} (l : list A) (r : Z) :
  0 <= r < len l ->
  exists a, nth_error l (Z.to_nat r) = Some a /\ PyObj.index l r = Done a.
Proof.
  intros Hr. unfold PyObj.index. fold (len l).
  destruct (r <? 0) eqn:E; [apply Z.ltb_lt in E; lia|].
  destruct (nth_error l (Z.to_nat r)) as [a|] eqn:En.
  - exists a. split; [reflexivity|].
    replace ((0 <=? r) && (r <? len l)) with true; [reflexivity|].
    symmetry. apply andb_true_iff. split; [apply Z.leb_le | apply Z.ltb_lt]; lia.
  - apply nth_error_None in En. unfold len in Hr. lia.
Qed.

Lemma unique_ids_nodup (l : list Question.t) :
  NoDup (map Question.id l) -> NoDup l.
Proof. apply NoDup_map_inv. Qed.

(** C5. A quiz request whose body has a quiz_category with an integer id and
    a list of integer ids as previous_questions: the candidates are the
    questions whose id is not among previous_questions, all of them when the
    category id is 0 and those of the category otherwise.  With no candidate
    the answer is [{success: true, question: null}], no error.  With
    candidates the answer is the candidate at the position that
    [random.randrange(0, len)] returns, so its id is not among
    previous_questions; positions and candidates correspond one to one, so a
    uniform position is a uniform candidate. *)
Theorem play_quiz_spec
        (randrange : Z -> Z -> Z) (st : Store) (request : Request)
        (kv qc : list (string * json)) (category_id : Z) (previous : list Z) :
  (forall n, 0 < n -> 0 <= randrange 0 n < n) ->
  body request = JObj kv ->
  Py.assoc "quiz_category" kv = Some (JObj qc) ->
  Py.assoc "id" qc = Some (JInt category_id) ->
  Py.assoc "previous_questions" kv = Some (JList (map JInt previous)) ->
  exists candidates,
    quiz_candidates st (JInt category_id) (JList (map JInt previous)) = Done candidates
    /\ (forall q, In q candidates <->
                  In q (question_table st) /\ quiz_candidate category_id previous q)
    /\ (candidates = [] ->
        play_quiz randrange st request =
        Done (JObj [ ("success", JBool true); ("question", JNull) ]))
    /\ (candidates <> [] ->
        exists q,
          nth_error candidates (Z.to_nat (randrange 0 (len candidates))) = Some q
          /\ In q candidates
          /\ ~ In (Question.id q) previous
          /\ play_quiz randrange st request =
             Done (JObj [ ("success", JBool true);
                          ("question", Question.format q) ]))
    /\ (unique_question_ids st ->
        (forall q, In q candidates ->
                   exists r, 0 <= r < len candidates
                             /\ nth_error candidates (Z.to_nat r) = Some q)
        /\ (forall r1 r2, 0 <= r1 < len candidates -> 0 <= r2 < len candidates ->
                          nth_error candidates (Z.to_nat r1)
                          = nth_error candidates (Z.to_nat r2) -> r1 = r2)).
Proof.
  intros Hrand Hb Hqc Hid Hprev.
  destruct (quiz_candidates_ints st category_id previous) as (cands & Hc & Hmem & Hnd).
  exists cands. split; [exact Hc|]. split; [exact Hmem|].
  assert (Hplay : play_quiz randrange st request =
                  (next_question <-
                     (if 0 <? len cands
                      then q <- PyObj.index cands (randrange 0 (len cands)) ;;
                           Done (Question.format q)
                      else Done JNull) ;;
                   Done (JObj [ ("success", JBool true);
                                ("question", next_question) ]))).
  { unfold play_quiz. rewrite Hb. simpl. rewrite Hqc, Hprev. simpl.
    rewrite Hid. simpl. rewrite Hc. reflexivity. }
  split; [|split].
  - intros ->. rewrite Hplay. reflexivity.
  - intros Hne.
    assert (Hpos : 0 < len cands).
    { unfold len. destruct cands; [congruence | simpl; lia]. }
    destruct (index_in_range cands (randrange 0 (len cands)) (Hrand _ Hpos))
      as (q & Hnth & Hidx).
    exists q. split; [exact Hnth|].
    assert (Hin : In q cands) by (eapply nth_error_In; exact Hnth).
    split; [exact Hin|]. split.
    + apply Hmem in Hin. destruct Hin as [_ [Hnot _]]. exact Hnot.
    + rewrite Hplay. apply Z.ltb_lt in Hpos. rewrite Hpos, Hidx. reflexivity.
  - intros Hu. apply unique_ids_nodup, Hnd in Hu. split.
    + intros q Hin. apply In_nth_error in Hin. destruct Hin as [n Hn].
      exists (Z.of_nat n). rewrite Nat2Z.id. split; [|exact Hn].
      assert (n < List.length cands)%nat by (apply nth_error_Some; congruence).
      unfold len. lia.
    + intros r1 r2 H1 H2 Heq.
      assert (Z.to_nat r1 = Z.to_nat r2).
      { apply (proj1 (NoDup_nth_error cands) Hu); [unfold len in H1; lia | exact Heq]. }
      lia.
Qed.

(* ------------------------------------------------------------------ *)
(** ** LIKE with a plain term between two [%] is a substring test *)
(* ------------------------------------------------------------------ *)

Lemma like_percent p s :
  Db.like ("%"%char :: p) s =
  Db.like p s || match s with [] => false | _ :: s' => Db.like ("%"%char :: p) s' end.
Proof. destruct s; reflexivity. Qed.

Lemma like_plain_cons c p s :
  plain_char c ->
  Db.like (c :: p) s =
  match s with [] => false | d :: s' => Ascii.eqb c d && Db.like p s' end.
Proof.
  intros (H1 & H2 & H3). simpl.
  apply Ascii.eqb_neq in H1. apply Ascii.eqb_neq in H2. apply Ascii.eqb_neq in H3.
  rewrite H1, H3.
  destruct s; [reflexivity|]. now rewrite H2.
Qed.

Lemma like_only_percent s : Db.like ["%"%char] s = true.
Proof.
  induction s as [|c s IH]; [reflexivity|].
  rewrite like_percent. rewrite IH. apply orb_true_r.
Qed.

Lemma like_plain_prefix t s :
  Forall plain_char t -> Db.like (t ++ ["%"%char]) s = starts_with t s.
Proof.
  intros Ht. revert s. induction Ht as [|c t Hc _ IH]; intros s.
  - simpl app. rewrite like_only_percent. now destruct s.
  - simpl app. rewrite like_plain_cons by assumption.
    destruct s as [|d s]; [reflexivity|]. simpl. now rewrite IH.
Qed.

Lemma like_infix t s :
  Forall plain_char t ->
  Db.like ("%"%char :: t ++ ["%"%char]) s = occurs_inb t s.
Proof.
  intros Ht. induction s as [|d s IH].
  - rewrite like_percent, like_plain_prefix by assumption. reflexivity.
  - rewrite like_percent, like_plain_prefix by assumption.
    rewrite IH. reflexivity.
Qed.

Lemma starts_with_iff t s : starts_with t s = true <-> exists rest, s = t ++ rest.
Proof.
  revert s. induction t as [|c t IH]; intros s; simpl.
  - split; [intros _; now exists s | reflexivity].
  - destruct s as [|d s].
    + split; [discriminate | intros [rest H]; discriminate].
    + rewrite andb_true_iff, Ascii.eqb_eq, IH. split.
      * intros [-> [rest ->]]. now exists rest.
      * intros [rest H]. inversion H; subst. split; [reflexivity | now exists rest].
Qed.

Lemma occurs_inb_iff t s : occurs_inb t s = true <-> occurs_in t s.
Proof.
  unfold occurs_in. induction s as [|d s IH]; simpl.
  - rewrite orb_false_r, starts_with_iff. split.
    + intros [rest H]. now exists [], rest.
    + intros (before & rest & H). destruct before as [|b before]; [|discriminate].
      now exists rest.
  - rewrite orb_true_iff, starts_with_iff, IH. split.
    + intros [[rest H] | (before & rest & H)].
      * now exists [], rest.
      * exists (d :: before), rest. simpl. now rewrite H.
    + intros (before & rest & H). destruct before as [|b before].
      * left. now exists rest.
      * right. inversion H; subst. now exists before, rest.
Qed.

Lemma contains_ci_iff term text :
  contains_ci term text = true <-> contains_ignoring_case term text.
Proof. apply occurs_inb_iff. Qed.

Lemma list_ascii_of_append a b :
  list_ascii_of_string (String.append a b)
  = list_ascii_of_string a ++ list_ascii_of_string b.
Proof. induction a as [|c a IH]; simpl; [reflexivity | now rewrite IH]. Qed.

Lemma lower_plain c : plain_char c -> plain_char (Db.lower c).
Proof.
  unfold plain_char.
  destruct c as [[] [] [] [] [] [] [] []]; vm_compute;
    intros (H1 & H2 & H3); repeat split; congruence.
Qed.

Lemma lower_text_plain term : plain_term term -> Forall plain_char (Db.lower_text term).
Proof.
  unfold plain_term, Db.lower_text. intros H.
  induction H as [|c l Hc _ IH]; simpl; constructor; [now apply lower_plain | exact IH].
Qed.

Lemma ilike_plain term text :
  plain_term term ->
  Db.ilike text (String.append "%" (String.append term "%")) = contains_ci term text.
Proof.
  intros Hp. unfold Db.ilike, contains_ci.
  replace (Db.lower_text (String.append "%" (String.append term "%")))
    with ("%"%char :: Db.lower_text term ++ ["%"%char]).
  - apply like_infix. now apply lower_text_plain.
  - unfold Db.lower_text. simpl. rewrite list_ascii_of_append, map_app. reflexivity.
Qed.

(* ------------------------------------------------------------------ *)
(** ** POST /questions/search *)
(* ------------------------------------------------------------------ *)

Lemma search_questions_cases repr st request kv :
  body request = JObj kv ->
  search_questions repr st request =
  search_answer st request
    (filter (fun q => Db.ilike (Question.question q)
                        (String.append "%"
                           (String.append
                              (format_value repr (body_value kv "searchTerm")) "%")))
            (question_table st)).
Proof.
  intros Hb. unfold search_questions. rewrite Hb. simpl.
  fold (body_value kv "searchTerm").
  destruct (filter _ (question_table st)) as [|q l] eqn:E; reflexivity.
Qed.

Lemma search_plain_text repr st request kv term :
  body request = JObj kv ->
  format_value repr (body_value kv "searchTerm") = term ->
  plain_term term ->
  search_questions repr st request =
  search_answer st request
    (filter (fun q => contains_ci term (Question.question q)) (question_table st)).
Proof.
  intros Hb Hv Hp. rewrite (search_questions_cases repr st request kv Hb), Hv.
  f_equal. apply filter_ext. intros q. now apply ilike_plain.
Qed.

Lemma plain_None : plain_term "None".
Proof. repeat constructor; discriminate. Qed.

(** A search whose [searchTerm] is a string without the LIKE wildcards [%]
    and [_] (nor a backslash) matches exactly the questions whose text
    contains the term as a case-insensitive substring; with no match the
    answer is NotFound, and otherwise [questions] is the requested page of
    the matches while [total_questions] counts all the questions of the
    store, not the matches. *)
Lemma search_plain_term
        (repr : json -> string) (st : Store) (request : Request)
        (kv : list (string * json)) (term : string) :
  body request = JObj kv ->
  Py.assoc "searchTerm" kv = Some (JStr term) ->
  plain_term term ->
  let matches :=
    filter (fun q => contains_ci term (Question.question q)) (question_table st) in
  (forall q, In q matches <->
             In q (question_table st)
             /\ contains_ignoring_case term (Question.question q))
  /\ search_questions repr st request = search_answer st request matches
  /\ (matches = [] -> search_questions repr st request = abort 404)
  /\ (forall j, search_questions repr st request = Done j ->
                field "questions" j = Some (JList (paginate_questions request matches))
                /\ field "total_questions" j = Some (JInt (len (question_table st)))).
Proof.
  intros Hb Hterm Hp. cbv zeta.
  assert (Hs : search_questions repr st request =
               search_answer st request
                 (filter (fun q => contains_ci term (Question.question q))
                         (question_table st))).
  { apply (search_plain_text repr st request kv term Hb); [|exact Hp].
    unfold body_value. now rewrite Hterm. }
  split; [|split; [exact Hs|split]].
  - intros q. rewrite filter_In, contains_ci_iff. tauto.
  - intros Hnil. rewrite Hs, Hnil. reflexivity.
  - intros j Hj. rewrite Hs in Hj.
    destruct (filter _ (question_table st)) as [|q l]; [discriminate|].
    simpl in Hj. inversion Hj; subst. split; reflexivity.
Qed.

(** A search whose body has no [searchTerm] key takes None as the term and
    puts its text, "None", into the pattern: the matches are the questions
    whose text contains "none" whatever the case, as for a request that
    sends the string "None". *)
Lemma search_absent_term
        (repr : json -> string) (st : Store) (request : Request)
        (kv : list (string * json)) :
  body request = JObj kv ->
  Py.assoc "searchTerm" kv = None ->
  let matches :=
    filter (fun q => contains_ci "None" (Question.question q)) (question_table st) in
  (forall q, In q matches <->
             In q (question_table st)
             /\ contains_ignoring_case "None" (Question.question q))
  /\ search_questions repr st request = search_answer st request matches
  /\ search_questions repr st request =
     search_questions repr st
       (mkRequest (args request) (JObj (("searchTerm", JStr "None") :: kv))).
Proof.
  intros Hb Hterm. cbv zeta.
  assert (Hs : search_questions repr st request =
               search_answer st request
                 (filter (fun q => contains_ci "None" (Question.question q))
                         (question_table st))).
  { apply (search_plain_text repr st request kv "None" Hb); [|exact plain_None].
    unfold body_value. now rewrite Hterm. }
  split; [|split; [exact Hs|]].
  - intros q. rewrite filter_In, contains_ci_iff. tauto.
  - rewrite Hs.
    rewrite (search_plain_text repr st
               (mkRequest (args request) (JObj (("searchTerm", JStr "None") :: kv)))
               (("searchTerm", JStr "None") :: kv) "None"
               eq_refl eq_refl plain_None).
    destruct (filter _ (question_table st)); reflexivity.
Qed.

(* ------------------------------------------------------------------ *)
(** ** The page in the answers of DELETE and POST /questions *)
(* ------------------------------------------------------------------ *)

Lemma paginate_first_page request selection :
  Py.assoc "page" (args request) = None ->
  paginate_questions request selection = map Question.format (firstn 10 selection).
Proof.
  intros Hnone. rewrite paginate_questions_window;
    rewrite (requested_page_default request Hnone); [|lia].
  change (Z.to_nat ((1 - 1) * 10)) with 0%nat. rewrite skipn_O.
  apply firstn_map.
Qed.

(** C2 (amended). In the success response of a DELETE of an existing question
    and of a create, [questions] is the page that the [page] query parameter
    of the request selects, the first page (the first up to 10 items) when
    the request has no such parameter, of the remaining (respectively all)
    questions in ascending order of id. *)
Theorem write_handlers_page (st : Store) (request : Request) :
  (forall question_id st' j,
      delete_question st request question_id = (st', Done j) ->
      question_table st' =
      filter (fun r => negb (has_id question_id r)) (question_table st)
      /\ exists selection,
          Permutation selection (question_table st')
          /\ ascending_by_id selection
          /\ field "questions" j = Some (JList (paginate_questions request selection))
          /\ (Py.assoc "page" (args request) = None ->
              field "questions" j =
              Some (JList (map Question.format (firstn 10 selection)))))
  /\ (forall st' j,
        create_question Db.insert st request = (st', Done j) ->
        (exists row, question_table st' = question_table st ++ [row])
        /\ exists selection,
            Permutation selection (question_table st')
            /\ ascending_by_id selection
            /\ field "questions" j = Some (JList (paginate_questions request selection))
            /\ (Py.assoc "page" (args request) = None ->
                field "questions" j =
                Some (JList (map Question.format (firstn 10 selection))))).
Proof.
  split.
  - intros question_id st' j H.
    pose proof (delete_question_cases st request question_id) as Hc.
    destruct (filter (has_id question_id) (question_table st)) as [|q [|q' l]] eqn:E;
      cbv zeta in Hc; rewrite Hc in H; try discriminate.
    inversion H; subst; clear H.
    destruct (filter_singleton_in _ _ _ E) as [_ Hid]. apply Z.eqb_eq in Hid.
    split; [now apply delete_table|].
    exists (Db.order_by_id (question_table (Db.delete st q))).
    split; [apply order_by_id_perm|]. split; [apply order_by_id_sorted|].
    split; [reflexivity|].
    intros Hnone. simpl. now rewrite paginate_first_page.
  - intros st' j H.
    destruct (body request) as [| | | | |kv] eqn:Hb;
      try (unfold create_question in H; rewrite Hb in H; simpl in H; discriminate).
    rewrite (create_question_cases Db.insert st request kv Hb) in H.
    destruct (_ && _); [|discriminate].
    destruct (Db.insert _ _ _ _ _) as [[st1 row]|e] eqn:E; [|discriminate].
    inversion H; subst; clear H.
    destruct (insert_row _ _ _ _ _ _ _ E) as (_ & Htab & _).
    split; [now exists row|].
    exists (Db.order_by_id (question_table st')).
    split; [apply order_by_id_perm|]. split; [apply order_by_id_sorted|].
    split; [reflexivity|].
    intros Hnone. simpl. now rewrite paginate_first_page.
Qed.

(* ------------------------------------------------------------------ *)
(** ** The endpoints on sample data *)
(* ------------------------------------------------------------------ *)

Example page_zero_is_empty :
  paginate_questions (page_request "0") (question_table trivia_store) = [].
Proof. reflexivity. Qed.

Example page_not_a_number :
  requested_page (page_request "two") = 1.
Proof. reflexivity. Qed.

Example search_title :
  contains_ci "tItLe" "What is the title of the 1990 fantasy directed by Tim Burton?"
  = true.
Proof. reflexivity. Qed.

Example search_title_answer :
  search_questions repr_any trivia_store (body_request [("searchTerm", JStr "tItLe")])
  = Done (JObj [ ("success", JBool true);
                 ("questions",
                  JList [ JObj [ ("id", JInt 1);
                                 ("question",
                                  JStr "What is the title of the 1990 fantasy directed by Tim Burton?");
                                 ("answer", JStr "Edward Scissorhands");
                                 ("category", JInt 1);
                                 ("difficulty", JInt 3) ] ]);
                 ("total_questions", JInt 3) ]).
Proof. vm_compute. reflexivity. Qed.

Example quiz_exhausted :
  play_quiz lowest trivia_store
    (body_request [ ("quiz_category", JObj [("id", JInt 0)]);
                    ("previous_questions", JList [JInt 1; JInt 2; JInt 3]) ])
  = Done (JObj [ ("success", JBool true); ("question", JNull) ]).
Proof. reflexivity. Qed.

Example quiz_missing_field :
  respond (play_quiz lowest trivia_store
             (body_request [ ("quiz_category", JObj [("id", JInt 0)]) ]))
  = mkResponse (Some (envelope 400 "bad request")) 400.
Proof. reflexivity. Qed.

Example create_then_listed :
  let request :=
    body_request [ ("question", JStr "Q1"); ("answer", JStr "A1");
                   ("category", JInt 1); ("difficulty", JInt 3) ] in
  let st' := fst (create_question Db.insert trivia_store request) in
  field "created" (match snd (create_question Db.insert trivia_store request) with
                   | Done j => j
                   | Raises _ => JNull
                   end) = Some (JInt 4)
  /\ In (Question.mk 4 "Q1" "A1" 1 3) (question_table st')
  /\ len (question_table st') = len (question_table trivia_store) + 1.
Proof. vm_compute. intuition congruence. Qed.

(* ------------------------------------------------------------------ *)
(** ** The statements at concrete requests *)
(* ------------------------------------------------------------------ *)

Lemma paginate_questions_spec_witness :
  1 <= requested_page (page_request "2")
  /\ Z.of_nat (List.length (paginate_questions (page_request "2")
                              (question_table twelve_questions)))
     = Z.min 10 (Z.max 0 (12 - (2 - 1) * 10)).
Proof.
  assert (Hp : 1 <= requested_page (page_request "2")) by (vm_compute; discriminate).
  split; [exact Hp|].
  exact (proj2 (proj2 (proj2 (proj2
           (paginate_questions_spec (page_request "2")
              (question_table twelve_questions)))) Hp)).
Defined.

Lemma get_questions_spec_witness :
  1 <= requested_page (page_request "9999")
  /\ len (question_table twelve_questions)
     <= (requested_page (page_request "9999") - 1) * 10
  /\ get_questions twelve_questions (page_request "9999") = abort 404.
Proof.
  assert (Hp : 1 <= requested_page (page_request "9999")) by (vm_compute; discriminate).
  assert (Hout : len (question_table twelve_questions)
                 <= (requested_page (page_request "9999") - 1) * 10)
    by (vm_compute; discriminate).
  split; [exact Hp|]. split; [exact Hout|].
  destruct (get_questions_spec twelve_questions (page_request "9999"))
    as (Hiff & _ & Hbeyond & _).
  apply Hiff. exact (Hbeyond Hp Hout).
Defined.

Lemma delete_question_spec_witness :
  (forall q, In q (question_table trivia_store) -> Question.id q <> 99)
  /\ delete_question trivia_store (page_request "1") 99 = (trivia_store, abort 422).
Proof.
  assert (Hnone : forall q, In q (question_table trivia_store) -> Question.id q <> 99).
  { simpl. intros q [<- | [<- | [<- | []]]]; discriminate. }
  split; [exact Hnone|].
  exact (proj1 (proj1 (delete_question_spec trivia_store (page_request "1") 99) Hnone)).
Defined.

Lemma create_question_spec_witness :
  let kv := [ ("question", JStr "Q1"); ("answer", JStr "A1"); ("difficulty", JInt 3) ] in
  ~ required_keys_present kv
  /\ (exists st' row,
        insert_anything trivia_store (body_value kv "question") (body_value kv "answer")
                        (body_value kv "category") (body_value kv "difficulty")
        = Done (st', row))
  /\ create_question insert_anything trivia_store (body_request kv)
     = (trivia_store, abort 422).
Proof.
  cbv zeta.
  assert (Hmiss : ~ required_keys_present
                    [ ("question", JStr "Q1"); ("answer", JStr "A1");
                      ("difficulty", JInt 3) ]).
  { intros (_ & _ & H & _). now apply H. }
  split; [exact Hmiss|]. split; [eexists; eexists; reflexivity|].
  destruct (create_question_spec insert_anything trivia_store
              (body_request [ ("question", JStr "Q1"); ("answer", JStr "A1");
                              ("difficulty", JInt 3) ])
              [ ("question", JStr "Q1"); ("answer", JStr "A1"); ("difficulty", JInt 3) ]
              eq_refl)
    as (Hiff & Hkeep & _).
  apply injective_projections.
  - exact (proj1 (Hkeep (or_introl Hmiss))).
  - exact (proj2 Hiff (or_introl Hmiss)).
Defined.

Lemma error_envelope_witness :
  raises_http (get_questions twelve_questions (page_request "9999")) 404
  /\ respond (get_questions twelve_questions (page_request "9999"))
     = mkResponse (Some (envelope 404 "resource not found")) 404.
Proof.
  assert (Hr : raises_http (get_questions twelve_questions (page_request "9999")) 404)
    by reflexivity.
  split; [exact Hr|].
  exact (proj1 (proj2 (proj2 (proj2 error_envelope))) _ 404 "resource not found"
               Hr eq_refl).
Defined.

Lemma get_questions_by_category_spec_witness :
  unique_category_ids trivia_store
  /\ In (Category.mk 2 "Art") (category_table trivia_store)
  /\ get_questions_by_category trivia_store (page_request "7") 2
     = Done (JObj [ ("success", JBool true);
                    ("questions", JList []);
                    ("total_questions", JInt 0);
                    ("current_category", JStr "Art") ]).
Proof.
  assert (Hu : unique_category_ids trivia_store).
  { unfold unique_category_ids. simpl.
    repeat constructor; simpl; intuition discriminate. }
  assert (Hin : In (Category.mk 2 "Art") (category_table trivia_store))
    by (simpl; auto).
  split; [exact Hu|]. split; [exact Hin|].
  exact (proj1 (get_questions_by_category_spec trivia_store (page_request "7") 2
                  (Category.mk 2 "Art") Hu Hin eq_refl)).
Defined.

Lemma play_quiz_spec_witness :
  let kv := [ ("quiz_category", JObj [("id", JInt 1)]);
              ("previous_questions", JList (map JInt [1])) ] in
  (forall n, 0 < n -> 0 <= lowest 0 n < n)
  /\ exists candidates,
      quiz_candidates trivia_store (JInt 1) (JList (map JInt [1])) = Done candidates
      /\ (candidates <> [] ->
          exists q,
            nth_error candidates (Z.to_nat (lowest 0 (len candidates))) = Some q
            /\ In q candidates
            /\ ~ In (Question.id q) [1]
            /\ play_quiz lowest trivia_store (body_request kv) =
               Done (JObj [ ("success", JBool true);
                            ("question", Question.format q) ])).
Proof.
  cbv zeta.
  assert (Hrand : forall n, 0 < n -> 0 <= lowest 0 n < n)
    by (unfold lowest; intros; lia).
  split; [exact Hrand|].
  destruct (play_quiz_spec lowest trivia_store
              (body_request [ ("quiz_category", JObj [("id", JInt 1)]);
                              ("previous_questions", JList (map JInt [1])) ])
              _ [("id", JInt 1)] 1 [1] Hrand eq_refl eq_refl eq_refl eq_refl)
    as (candidates & Hc & _ & _ & Hsome & _).
  exists candidates. split; [exact Hc | exact Hsome].
Defined.

Lemma write_handlers_page_witness :
  exists st' j,
    delete_question twelve_questions (page_request "2") 1 = (st', Done j)
    /\ exists selection,
        Permutation selection (question_table st')
        /\ ascending_by_id selection
        /\ field "questions" j =
           Some (JList (paginate_questions (page_request "2") selection)).
Proof.
  eexists. eexists.
  assert (Hd : delete_question twelve_questions (page_request "2") 1
               = (Db.delete twelve_questions (numbered_question 1),
                  Done (JObj [ ("success", JBool true);
                               ("deleted", JInt 1);
                               ("questions",
                                JList (paginate_questions (page_request "2")
                                         (Db.order_by_id
                                            (question_table
                                               (Db.delete twelve_questions
                                                  (numbered_question 1))))));
                               ("total_questions",
                                JInt (len (question_table
                                             (Db.delete twelve_questions
                                                (numbered_question 1))))) ])))
    by reflexivity.
  split; [exact Hd|].
  destruct (proj1 (write_handlers_page twelve_questions (page_request "2")) _ _ _ Hd)
    as (_ & selection & Hperm & Hsorted & Hfield & _).
  exists selection. repeat split; assumption.
Defined.

(* ------------------------------------------------------------------ *)
(** ** Three requests traced *)
(* ------------------------------------------------------------------ *)

(** DELETE /questions/1?page=2 on twelve questions: the answer lists the one
    question on the second page of the remaining eleven, not their first
    page. *)
Lemma delete_question_page_counterexample :
  exists st' j,
    delete_question twelve_questions (page_request "2") 1 = (st', Done j)
    /\ question_table st' =
       map numbered_question [2; 3; 4; 5; 6; 7; 8; 9; 10; 11; 12]
    /\ field "questions" j = Some (JList [Question.format (numbered_question 12)])
    /\ field "questions" j <>
       Some (JList (map Question.format
                        (firstn 10 (Db.order_by_id (question_table st'))))).
Proof.
  eexists. eexists. split; [reflexivity|]. split; [reflexivity|].
  split; [reflexivity|]. vm_compute. discriminate.
Qed.

(** C3. POST /questions/search with the body {} on a store of three
    questions: the missing term is None, its text "None" goes into the
    pattern, and the only match is the question whose text contains "none".
    The answer lists that question alone; were the missing term no filter, it
    would list the three questions. *)
Theorem search_questions_empty_body :
  Py.assoc "searchTerm" ([] : list (string * json)) = None
  /\ len (question_table trivia_store) = 3
  /\ filter (fun q => Db.ilike (Question.question q) "%None%")
            (question_table trivia_store)
     = [ Question.mk 2 "Which two planets have none of the known moons?"
                     "Mercury and Venus" 1 2 ]
  /\ search_questions repr_any trivia_store (body_request []) =
     Done (JObj [ ("success", JBool true);
                  ("questions",
                   JList [ Question.format
                             (Question.mk 2 "Which two planets have none of the known moons?"
                                          "Mercury and Venus" 1 2) ]);
                  ("total_questions", JInt 3) ])
  /\ search_answer trivia_store (body_request []) (question_table trivia_store) =
     Done (JObj [ ("success", JBool true);
                  ("questions",
                   JList (map Question.format (question_table trivia_store)));
                  ("total_questions", JInt 3) ]).
Proof.
  split; [reflexivity|]. split; [reflexivity|].
  split; [vm_compute; reflexivity|]. split; vm_compute; reflexivity.
Qed.

(** C4. POST /questions/search with the term "l_ke": the text of the
    question about the largest lake does not contain "l_ke", whatever the
    case, and yet the question is the match of the search, the [_] of the
    term standing for any character in the LIKE pattern; [total_questions]
    is 3, the count of all the questions. *)
Theorem search_questions_wildcard :
  contains_ci "l_ke" "What is the largest lake in Africa?" = false
  /\ Db.ilike "What is the largest lake in Africa?" "%l_ke%" = true
  /\ search_questions repr_any trivia_store
       (body_request [("searchTerm", JStr "l_ke")]) =
     Done (JObj [ ("success", JBool true);
                  ("questions",
                   JList [ Question.format
                             (Question.mk 3 "What is the largest lake in Africa?"
                                          "Lake Victoria" 3 2) ]);
                  ("total_questions", JInt 3) ]).
Proof.
  split; [vm_compute; reflexivity|]. split; vm_compute; reflexivity.
Qed.

(* ------------------------------------------------------------------ *)
(** ** Numerals: [int] reads back what [str] writes *)
(* ------------------------------------------------------------------ *)

Lemma lstrip_no_space c s : Py.is_space c = false -> Py.lstrip (c :: s) = c :: s.
Proof. intros H. simpl. now rewrite H. Qed.

Lemma strip_no_space s :
  Forall (fun c => Py.is_space c = false) s -> Py.strip s = s.
Proof.
  intros H. unfold Py.strip.
  assert (H1 : Py.lstrip s = s).
  { destruct H as [|c s Hc _]; [reflexivity | now apply lstrip_no_space]. }
  rewrite H1.
  assert (H2 : Forall (fun c => Py.is_space c = false) (rev s)).
  { apply Forall_forall. intros c Hc. apply in_rev in Hc.
    revert c Hc. now apply Forall_forall. }
  assert (H3 : Py.lstrip (rev s) = rev s).
  { destruct H2 as [|c r Hc _]; [reflexivity | now apply lstrip_no_space]. }
  rewrite H3. apply rev_involutive.
Qed.

Lemma uint_chars_no_space d :
  Forall (fun c => Py.is_space c = false)
         (list_ascii_of_string (NilEmpty.string_of_uint d)).
Proof. induction d; simpl; constructor; auto. Qed.

Lemma digits_uint_acc d acc :
  Py.digits (Zpos acc) true (list_ascii_of_string (NilEmpty.string_of_uint d))
  = Some (Zpos (Pos.of_uint_acc d acc)).
Proof.
  revert acc.
  induction d; intros acc;
    cbn [NilEmpty.string_of_uint list_ascii_of_string Py.digits Pos.of_uint_acc];
    [reflexivity | ..];
    match goal with
    | |- context [Py.digit_of ?c] =>
        let v := eval vm_compute in (Py.digit_of c) in
        change (Py.digit_of c) with v
    end; cbv iota beta; rewrite <- IHd; f_equal; lia.
Qed.

Lemma digits_uint d after_digit :
  d <> Decimal.Nil ->
  Py.digits 0 after_digit (list_ascii_of_string (NilEmpty.string_of_uint d))
  = Some (Z.of_N (Pos.of_uint d)).
Proof.
  revert after_digit. induction d; intros after_digit Hd; [congruence | ..];
    cbn [NilEmpty.string_of_uint list_ascii_of_string Py.digits Pos.of_uint];
    match goal with
    | |- context [Py.digit_of ?c] =>
        let v := eval vm_compute in (Py.digit_of c) in
        change (Py.digit_of c) with v
    end; cbv iota beta;
    try (apply (digits_uint_acc d)).
  destruct d; [reflexivity | apply IHd; discriminate ..].
Qed.

Lemma int_of_uint_chars d :
  d <> Decimal.Nil ->
  match list_ascii_of_string (NilEmpty.string_of_uint d) with
  | "-"%char :: r => option_map Z.opp (Py.digits 0 false r)
  | "+"%char :: r => Py.digits 0 false r
  | t => Py.digits 0 false t
  end = Some (Z.of_N (Pos.of_uint d)).
Proof.
  intros Hd. rewrite <- (digits_uint d false Hd).
  destruct d; [congruence | reflexivity ..].
Qed.

Lemma string_of_uint_nonnil d :
  d <> Decimal.Nil -> NilZero.string_of_uint d = NilEmpty.string_of_uint d.
Proof. destruct d; [congruence | reflexivity ..]. Qed.

(** [int(str(z))] is [z]. *)
Lemma int_str (z : Z) : Py.int (Py.str_of_int z) = Some z.
Proof.
  unfold Py.int, Py.str_of_int. destruct z as [|p|p]; [reflexivity | |].
  - cbn [Z.to_int NilZero.string_of_int].
    pose proof (DecimalPos.Unsigned.to_uint_nonnil p) as Hn.
    rewrite (string_of_uint_nonnil _ Hn).
    rewrite strip_no_space by apply uint_chars_no_space.
    rewrite (int_of_uint_chars _ Hn), DecimalPos.Unsigned.of_to. reflexivity.
  - cbn [Z.to_int NilZero.string_of_int list_ascii_of_string].
    pose proof (DecimalPos.Unsigned.to_uint_nonnil p) as Hn.
    rewrite (string_of_uint_nonnil _ Hn).
    rewrite strip_no_space
      by (constructor; [reflexivity | apply uint_chars_no_space]).
    cbv iota beta.
    rewrite (digits_uint _ false Hn), DecimalPos.Unsigned.of_to. reflexivity.
Qed.

Lemma requested_numbered_page (p : Z) : requested_page (numbered_page p) = p.
Proof.
  unfold requested_page, numbered_page, page_request, args_get_int. simpl.
  now rewrite int_str.
Qed.

Lemma str_of_int_inj (a b : Z) : Py.str_of_int a = Py.str_of_int b -> a = b.
Proof.
  intros H. pose proof (int_str a) as Ha. rewrite H, int_str in Ha. congruence.
Qed.

(* ------------------------------------------------------------------ *)
(** ** Pages and rows *)
(* ------------------------------------------------------------------ *)

Lemma slice_map {A B : Type} (f : A -> B) (l : list A) (start stop : Z) :
  Py.slice (map f l) start stop = map f (Py.slice l start stop).
Proof.
  unfold Py.slice. rewrite length_map, skipn_map, firstn_map. reflexivity.
Qed.

Lemma paginate_rows request selection :
  paginate_questions request selection =
  map Question.format (current_rows request selection).
Proof. unfold paginate_questions, current_rows. apply slice_map. Qed.

Lemma slice_parts {A : Type} (l : list A) (start stop : Z) :
  exists before after, l = before ++ Py.slice l start stop ++ after.
Proof.
  unfold Py.slice.
  set (lo := Z.to_nat (Py.slice_index (Z.of_nat (List.length l)) start)).
  set (k := Z.to_nat _).
  exists (firstn lo l), (skipn k (skipn lo l)).
  now rewrite (firstn_skipn k), (firstn_skipn lo).
Qed.

Lemma sorted_app_r {A : Type} (R : A -> A -> Prop) (a b : list A) :
  Sorted R (a ++ b) -> Sorted R b.
Proof.
  induction a as [|x a IH]; simpl; [tauto|].
  intros H. inversion H; subst. auto.
Qed.

Lemma sorted_app_l {A : Type} (R : A -> A -> Prop) (a b : list A) :
  Sorted R (a ++ b) -> Sorted R a.
Proof.
  induction a as [|x a IH]; simpl; intros H; [constructor|].
  inversion H as [|? ? Hs Hh]; subst. constructor; [auto|].
  destruct a; [constructor|]. inversion Hh; subst. now constructor.
Qed.

Lemma current_rows_part request selection :
  exists before after, selection = before ++ current_rows request selection ++ after.
Proof. apply slice_parts. Qed.

Lemma current_rows_in request selection q :
  In q (current_rows request selection) -> In q selection.
Proof.
  intros H. destruct (current_rows_part request selection) as (b & a & E).
  rewrite E. apply in_or_app. right. apply in_or_app. now left.
Qed.

Lemma current_rows_sorted request selection :
  ascending_by_id selection -> ascending_by_id (current_rows request selection).
Proof.
  unfold ascending_by_id. intros H.
  destruct (current_rows_part request selection) as (b & a & E).
  rewrite E in H. apply sorted_app_r in H. now apply sorted_app_l in H.
Qed.

Lemma current_rows_length request selection :
  len (current_rows request selection) <= 10.
Proof.
  pose proof (paginate_questions_length request selection) as H.
  rewrite paginate_rows, length_map in H. exact H.
Qed.

(** X1. A page p >= 1 holds, at position i < 10, the item at position
    (p-1)*10 + i of the formatted selection, and nothing from position 10
    on: over the pages 1, 2, 3, ... no item is skipped and none comes
    twice. *)
Theorem paginate_questions_index
        (request : Request) (selection : list Question.t) (i : nat) :
  1 <= requested_page request ->
  nth_error (paginate_questions request selection) i =
  if (i <? 10)%nat
  then nth_error (map Question.format selection)
                 (Z.to_nat ((requested_page request - 1) * 10) + i)
  else None.
Proof.
  intros Hp. rewrite paginate_questions_window by assumption.
  rewrite nth_error_firstn. destruct (i <? 10)%nat; [|reflexivity].
  apply nth_error_skipn.
Qed.

Lemma paginate_questions_index_witness :
  1 <= requested_page (page_request "2")
  /\ nth_error (paginate_questions (page_request "2")
                  (question_table twelve_questions)) 1
     = Some (Question.format (numbered_question 12)).
Proof.
  assert (Hp : 1 <= requested_page (page_request "2")) by (vm_compute; discriminate).
  split; [exact Hp|].
  rewrite (paginate_questions_index (page_request "2")
             (question_table twelve_questions) 1 Hp).
  reflexivity.
Defined.

Lemma paginate_at_position (selection : list Question.t) (n : nat) (q : Question.t) :
  nth_error selection n = Some q ->
  nth_error (paginate_questions (numbered_page (Z.of_nat n / 10 + 1)) selection)
            (n mod 10)
  = Some (Question.format q).
Proof.
  intros Hn.
  set (request := numbered_page (Z.of_nat n / 10 + 1)).
  assert (Hpage : requested_page request = Z.of_nat n / 10 + 1)
    by apply requested_numbered_page.
  assert (Hp : 1 <= requested_page request).
  { rewrite Hpage. pose proof (Z.div_pos (Z.of_nat n) 10). lia. }
  rewrite paginate_questions_window by assumption.
  rewrite nth_error_firstn, nth_error_skipn.
  assert (Hlt : (n mod 10 < 10)%nat) by (apply Nat.mod_upper_bound; lia).
  apply Nat.ltb_lt in Hlt. rewrite Hlt.
  replace (Z.to_nat ((requested_page request - 1) * 10) + n mod 10)%nat with n.
  - now apply map_nth_error.
  - rewrite Hpage.
    replace (Z.of_nat n / 10 + 1 - 1) with (Z.of_nat (n / 10))
      by (rewrite Nat2Z.inj_div; simpl; lia).
    pose proof (Nat.div_mod_eq n 10). lia.
Qed.

Lemma get_questions_nonempty st request x :
  In x (paginate_questions request (Db.order_by_id (question_table st))) ->
  get_questions st request =
  Done (JObj [ ("success", JBool true);
               ("questions",
                JList (paginate_questions request
                         (Db.order_by_id (question_table st))));
               ("total_questions", JInt (len (question_table st))) ]).
Proof.
  intros Hx. unfold get_questions.
  destruct (len _ =? 0) eqn:E; [|reflexivity].
  apply (proj1 (len_zero_nil _)) in E. rewrite E in Hx. destruct Hx.
Qed.

(** X2. GET /questions?page=<n/10 + 1> answers with the question that stands at
    position n (from 0) of the questions in ascending order of id, at
    position n mod 10 of the page. *)
Theorem get_questions_reaches_every_row
        (st : Store) (n : nat) (q : Question.t) :
  nth_error (Db.order_by_id (question_table st)) n = Some q ->
  exists page,
    get_questions st (numbered_page (Z.of_nat n / 10 + 1)) =
    Done (JObj [ ("success", JBool true);
                 ("questions", JList page);
                 ("total_questions", JInt (len (question_table st))) ])
    /\ nth_error page (n mod 10) = Some (Question.format q).
Proof.
  intros Hn.
  pose proof (paginate_at_position (Db.order_by_id (question_table st)) n q Hn) as Hi.
  eexists. split; [|exact Hi].
  apply (get_questions_nonempty st _ (Question.format q)).
  eapply nth_error_In. exact Hi.
Qed.

Lemma get_questions_reaches_every_row_witness :
  nth_error (Db.order_by_id (question_table twelve_questions)) 11
  = Some (numbered_question 12)
  /\ exists page,
      get_questions twelve_questions (numbered_page 2) =
      Done (JObj [ ("success", JBool true);
                   ("questions", JList page);
                   ("total_questions", JInt 12) ])
      /\ nth_error page 1 = Some (Question.format (numbered_question 12)).
Proof.
  assert (Hn : nth_error (Db.order_by_id (question_table twelve_questions)) 11
               = Some (numbered_question 12)) by reflexivity.
  split; [exact Hn|].
  exact (get_questions_reaches_every_row twelve_questions 11 (numbered_question 12) Hn).
Defined.

(* ------------------------------------------------------------------ *)
(** ** GET /questions: pages below 1, the default page, the rows listed *)
(* ------------------------------------------------------------------ *)

Lemma requested_page_one request :
  (Py.assoc "page" (args request) = None
   \/ exists v, Py.assoc "page" (args request) = Some v /\ Py.int v = None) ->
  requested_page request = 1.
Proof.
  intros [H | (v & H1 & H2)];
    [now apply requested_page_default | now apply (requested_page_malformed request v)].
Qed.

(** X3. Pages below 1.  Page 0 is empty whatever the selection, so that
    GET /questions?page=0 is NotFound on every store.  A negative page p
    counts from the end: its window starts (1-p)*10 items before the end of
    the selection; it is empty when the selection has at most (1-p)*10 - 10
    items, and holds 10 items when the selection has (1-p)*10 or more. *)
Theorem paginate_questions_below_one
        (st : Store) (request : Request) (selection : list Question.t) :
  let p := requested_page request in
  let back := (1 - p) * 10 in
  (p = 0 ->
   paginate_questions request selection = []
   /\ get_questions st request = abort 404)
  /\ (p < 0 -> len selection <= back - 10 ->
      paginate_questions request selection = [])
  /\ (p < 0 -> back <= len selection ->
      paginate_questions request selection =
      map Question.format
          (firstn 10 (skipn (Z.to_nat (len selection - back)) selection))).
Proof.
  cbv zeta.
  assert (Hzero : forall sel, requested_page request = 0 ->
                              paginate_questions request sel = []).
  { intros sel Hp. unfold paginate_questions. rewrite Hp.
    unfold Py.slice, Py.slice_index, QUESTIONS_PER_PAGE.
    change ((0 - 1) * 10 + 10) with 0. change ((0 - 1) * 10) with (-10).
    change (0 <? 0) with false. change (-10 <? 0) with true. cbv iota.
    rewrite length_map. set (n := Z.of_nat (List.length sel)).
    replace (Z.to_nat _) with 0%nat by lia.
    apply firstn_O. }
  split; [|split].
  - intros Hp. split; [now apply Hzero|].
    unfold get_questions. now rewrite Hzero.
  - intros Hp Hlen. unfold paginate_questions, Py.slice, Py.slice_index,
      QUESTIONS_PER_PAGE, len in *.
    rewrite length_map. set (n := Z.of_nat (List.length selection)) in *.
    set (p := requested_page request) in *.
    destruct ((p - 1) * 10 <? 0) eqn:E1; [|apply Z.ltb_ge in E1; lia].
    destruct ((p - 1) * 10 + 10 <? 0) eqn:E2.
    + replace (Z.to_nat _) with 0%nat by lia. apply firstn_O.
    + apply Z.ltb_ge in E2. replace (Z.to_nat _) with 0%nat by lia. apply firstn_O.
  - intros Hp Hlen. rewrite paginate_rows. f_equal.
    unfold current_rows, Py.slice, Py.slice_index, QUESTIONS_PER_PAGE, len in *.
    set (n := Z.of_nat (List.length selection)) in *.
    set (p := requested_page request) in *.
    destruct ((p - 1) * 10 <? 0) eqn:E1; [|apply Z.ltb_ge in E1; lia].
    destruct ((p - 1) * 10 + 10 <? 0) eqn:E2; [|apply Z.ltb_ge in E2; lia].
    f_equal; [|f_equal]; lia.
Qed.

Lemma paginate_questions_below_one_witness :
  requested_page (page_request "-1") < 0
  /\ (1 - requested_page (page_request "-1")) * 10
     <= len (question_table (numbered_store 25))
  /\ get_questions (numbered_store 25) (page_request "0") = abort 404
  /\ paginate_questions (page_request "-1") (question_table trivia_store) = []
  /\ paginate_questions (page_request "-1") (question_table (numbered_store 25))
     = map (fun i => Question.format (numbered_question i))
           [6; 7; 8; 9; 10; 11; 12; 13; 14; 15].
Proof.
  assert (Hp : requested_page (page_request "-1") < 0) by reflexivity.
  assert (Hlen : (1 - requested_page (page_request "-1")) * 10
                 <= len (question_table (numbered_store 25)))
    by (vm_compute; discriminate).
  split; [exact Hp|]. split; [exact Hlen|]. split; [|split].
  - exact (proj2 (proj1 (paginate_questions_below_one (numbered_store 25)
                           (page_request "0") (question_table (numbered_store 25)))
                        eq_refl)).
  - apply (proj1 (proj2 (paginate_questions_below_one trivia_store
                           (page_request "-1") (question_table trivia_store))));
      [exact Hp | vm_compute; discriminate].
  - rewrite (proj2 (proj2 (paginate_questions_below_one (numbered_store 25)
                             (page_request "-1")
                             (question_table (numbered_store 25)))) Hp Hlen).
    reflexivity.
Defined.

Lemma order_by_id_in l q : In q (Db.order_by_id l) <-> In q l.
Proof.
  split; apply Permutation_in;
    [apply order_by_id_perm | apply Permutation_sym, order_by_id_perm].
Qed.

Lemma order_by_id_nil l : Db.order_by_id l = [] <-> l = [].
Proof.
  pose proof (order_by_id_length l) as H.
  destruct l, (Db.order_by_id _); simpl in H; split; congruence.
Qed.

(** X4. GET /questions without a [page] parameter, or with one that is not an
    integer, answers with the first ten questions (or fewer) in ascending
    order of id; on a store without questions every GET /questions is
    NotFound. *)
Theorem get_questions_first_page (st : Store) (request : Request) :
  (question_table st = [] -> get_questions st request = abort 404)
  /\ ((Py.assoc "page" (args request) = None
       \/ exists v, Py.assoc "page" (args request) = Some v /\ Py.int v = None) ->
      question_table st <> [] ->
      get_questions st request =
      Done (JObj [ ("success", JBool true);
                   ("questions",
                    JList (map Question.format
                               (firstn 10 (Db.order_by_id (question_table st)))));
                   ("total_questions", JInt (len (question_table st))) ])).
Proof.
  split.
  - intros Hnil. unfold get_questions. rewrite Hnil. simpl.
    now rewrite paginate_nothing.
  - intros Hpage Hne. apply requested_page_one in Hpage.
    unfold get_questions.
    rewrite paginate_questions_window by lia. rewrite Hpage.
    change (Z.to_nat ((1 - 1) * 10)) with 0%nat. rewrite skipn_O, firstn_map.
    destruct (Db.order_by_id (question_table st)) as [|q l] eqn:E.
    + apply (proj1 (order_by_id_nil _)) in E. contradiction.
    + reflexivity.
Qed.

Lemma get_questions_first_page_witness :
  (exists v, Py.assoc "page" (args (page_request "two")) = Some v /\ Py.int v = None)
  /\ question_table trivia_store <> []
  /\ get_questions trivia_store (page_request "two") =
     Done (JObj [ ("success", JBool true);
                  ("questions",
                   JList (map Question.format (question_table trivia_store)));
                  ("total_questions", JInt 3) ]).
Proof.
  assert (Hv : exists v, Py.assoc "page" (args (page_request "two")) = Some v
                         /\ Py.int v = None)
    by (exists "two"; split; reflexivity).
  assert (Hne : question_table trivia_store <> []) by discriminate.
  split; [exact Hv|]. split; [exact Hne|].
  exact (proj2 (get_questions_first_page trivia_store (page_request "two"))
               (or_intror Hv) Hne).
Defined.

(** X5. What a successful GET /questions lists: at least one and at most ten
    rows of the question table, in ascending order of id, and beside them
    the count of the whole table. *)
Theorem get_questions_rows (st : Store) (request : Request) (j : json) :
  get_questions st request = Done j ->
  exists rows,
    lists_rows j rows
    /\ rows <> []
    /\ len rows <= 10
    /\ ascending_by_id rows
    /\ (forall q, In q rows -> In q (question_table st))
    /\ field "total_questions" j = Some (JInt (len (question_table st)))
    /\ len rows <= len (question_table st).
Proof.
  unfold get_questions. rewrite paginate_rows.
  set (rows := current_rows request (Db.order_by_id (question_table st))).
  destruct (len _ =? 0) eqn:E; [discriminate|].
  intros H. inversion H; subst; clear H. exists rows.
  split; [reflexivity|]. split.
  { apply (proj1 (len_zero_cons _)) in E. intros Hr. apply E. now rewrite Hr. }
  split; [apply current_rows_length|].
  split; [apply current_rows_sorted, order_by_id_sorted|].
  split; [intros q Hq; apply current_rows_in in Hq;
          now apply (proj1 (order_by_id_in _ _)) in Hq|].
  split; [reflexivity|].
  destruct (current_rows_part request (Db.order_by_id (question_table st)))
    as (b & a & Hparts).
  fold rows in Hparts.
  assert (Hl : List.length (Db.order_by_id (question_table st))
               = List.length (b ++ rows ++ a)) by now rewrite <- Hparts.
  rewrite order_by_id_length, !length_app in Hl. unfold len. lia.
Qed.

Lemma get_questions_rows_witness :
  exists rows,
    lists_rows (JObj [ ("success", JBool true);
                       ("questions",
                        JList (map Question.format (question_table trivia_store)));
                       ("total_questions", JInt 3) ]) rows
    /\ rows <> [] /\ ascending_by_id rows.
Proof.
  destruct (get_questions_rows trivia_store (page_request "1") _ eq_refl)
    as (rows & H1 & H2 & _ & H3 & _).
  exists rows. repeat split; assumption.
Defined.

(* ------------------------------------------------------------------ *)
(** ** DELETE /questions/<id>: when it succeeds, and what is left *)
(* ------------------------------------------------------------------ *)

Lemma in_ids_row (l : list Question.t) (question_id : Z) :
  In question_id (map Question.id l) <->
  exists q, In q l /\ Question.id q = question_id.
Proof.
  rewrite in_map_iff. split; intros (q & H1 & H2); exists q; tauto.
Qed.

Lemma filter_has_id_unique st q :
  unique_question_ids st -> In q (question_table st) ->
  filter (has_id (Question.id q)) (question_table st) = [q].
Proof. intros Hu Hin. now apply (filter_unique_key Question.id). Qed.

Lemma filter_has_id_none st question_id :
  ~ In question_id (map Question.id (question_table st)) ->
  filter (has_id question_id) (question_table st) = [].
Proof.
  intros Hn. apply filter_none. intros q Hq. apply Z.eqb_neq.
  intros E. apply Hn. apply in_ids_row. now exists q.
Qed.

(** X6. With ids that are unique, DELETE /questions/<id> succeeds exactly when a
    question has the id, whatever page the request names (an empty page is
    no failure here), and is Unprocessable, with the store untouched, exactly
    when no question has it. *)
Theorem delete_question_succeeds_iff
        (st : Store) (request : Request) (question_id : Z) :
  unique_question_ids st ->
  (In question_id (map Question.id (question_table st)) <->
   exists st' j, delete_question st request question_id = (st', Done j))
  /\ (~ In question_id (map Question.id (question_table st)) <->
      delete_question st request question_id = (st, abort 422)).
Proof.
  intros Hu.
  pose proof (delete_question_cases st request question_id) as Hc.
  destruct (in_dec Z.eq_dec question_id (map Question.id (question_table st)))
    as [Hin | Hout].
  - destruct (proj1 (in_ids_row _ _) Hin) as (q & Hq & Hid). subst question_id.
    rewrite (filter_has_id_unique st q Hu Hq) in Hc. cbv zeta in Hc.
    split; split; try tauto.
    + intros _. eexists. eexists. exact Hc.
    + rewrite Hc. intros H. inversion H.
  - rewrite (filter_has_id_none st question_id Hout) in Hc.
    split; split; try tauto.
    intros (st' & j & H). rewrite Hc in H. discriminate.
Qed.

Lemma delete_question_succeeds_iff_witness :
  unique_question_ids twelve_questions
  /\ In 1 (map Question.id (question_table twelve_questions))
  /\ exists st' j,
      delete_question twelve_questions (page_request "9999") 1 = (st', Done j).
Proof.
  assert (Hu : unique_question_ids twelve_questions).
  { unfold unique_question_ids. simpl.
    repeat constructor; simpl; intuition discriminate. }
  assert (Hin : In 1 (map Question.id (question_table twelve_questions)))
    by (simpl; auto).
  split; [exact Hu|]. split; [exact Hin|].
  exact (proj1 (proj1 (delete_question_succeeds_iff twelve_questions
                         (page_request "9999") 1 Hu)) Hin).
Defined.

(** X7. After a successful DELETE the question table holds the rows it held,
    without those of the deleted id and in the same order; the categories are
    untouched; and a second DELETE of the same id is Unprocessable and
    changes nothing. *)
Theorem delete_question_is_final
        (st st' : Store) (request : Request) (question_id : Z) (j : json) :
  delete_question st request question_id = (st', Done j) ->
  question_table st' =
  filter (fun r => negb (has_id question_id r)) (question_table st)
  /\ (forall q, In q (question_table st') <->
                In q (question_table st) /\ Question.id q <> question_id)
  /\ category_table st' = category_table st
  /\ (forall request',
        delete_question st' request' question_id = (st', abort 422)).
Proof.
  intros H.
  pose proof (delete_question_cases st request question_id) as Hc.
  destruct (filter (has_id question_id) (question_table st)) as [|q [|q' l]] eqn:E;
    cbv zeta in Hc; rewrite Hc in H; try discriminate.
  inversion H; subst; clear H.
  destruct (filter_singleton_in _ _ _ E) as [_ Hid]. apply Z.eqb_eq in Hid.
  assert (Htab : question_table (Db.delete st q) =
                 filter (fun r => negb (has_id question_id r)) (question_table st))
    by now apply delete_table.
  split; [exact Htab|]. split; [|split; [reflexivity|]].
  - intros r. rewrite Htab, filter_In. unfold has_id.
    rewrite negb_true_iff, Z.eqb_neq. tauto.
  - intros request'.
    pose proof (delete_question_cases (Db.delete st q) request' question_id) as Hc'.
    rewrite Htab in Hc'.
    rewrite (filter_none (has_id question_id)) in Hc'; [exact Hc'|].
    intros r Hr. apply filter_In in Hr. destruct Hr as [_ Hr].
    now apply negb_true_iff in Hr.
Qed.

Lemma delete_question_is_final_witness :
  exists st' j,
    delete_question trivia_store (page_request "1") 2 = (st', Done j)
    /\ delete_question st' (page_request "1") 2 = (st', abort 422).
Proof.
  eexists. eexists.
  assert (Hd : delete_question trivia_store (page_request "1") 2
               = (Db.delete trivia_store
                    (Question.mk 2 "Which two planets have none of the known moons?"
                                 "Mercury and Venus" 1 2),
                  Done (JObj [ ("success", JBool true);
                               ("deleted", JInt 2);
                               ("questions",
                                JList (paginate_questions (page_request "1")
                                         (Db.order_by_id
                                            (question_table
                                               (Db.delete trivia_store
                                                  (Question.mk 2 "Which two planets have none of the known moons?"
                                                               "Mercury and Venus" 1 2))))));
                               ("total_questions", JInt 2) ])))
    by reflexivity.
  split; [exact Hd|].
  exact (proj2 (proj2 (proj2 (delete_question_is_final _ _ _ _ _ Hd)))
               (page_request "1")).
Defined.

(* ------------------------------------------------------------------ *)
(** ** POST /questions/search: outcome for any term *)
(* ------------------------------------------------------------------ *)

Lemma search_questions_matches repr st request kv :
  body request = JObj kv ->
  search_questions repr st request =
  search_answer st request (search_matches repr st (body_value kv "searchTerm")).
Proof. apply search_questions_cases. Qed.

(** X9. A search with a JSON object as body is NotFound exactly when no question
    matches the pattern.  With a match it succeeds, also for a page beyond
    the matches, where [questions] is empty (GET /questions is NotFound
    there); every question listed is a stored row that matches, and
    [total_questions] counts the whole table. *)
Theorem search_questions_outcome
        (repr : json -> string) (st : Store) (request : Request)
        (kv : list (string * json)) :
  body request = JObj kv ->
  let matches := search_matches repr st (body_value kv "searchTerm") in
  let rows := current_rows request matches in
  (search_questions repr st request = abort 404 <-> matches = [])
  /\ (matches <> [] ->
      search_questions repr st request =
      Done (JObj [ ("success", JBool true);
                   ("questions", JList (map Question.format rows));
                   ("total_questions", JInt (len (question_table st))) ]))
  /\ (forall q, In q rows ->
                In q (question_table st)
                /\ Db.ilike (Question.question q)
                     (search_pattern repr (body_value kv "searchTerm")) = true)
  /\ (1 <= requested_page request ->
      len matches <= (requested_page request - 1) * 10 -> rows = []).
Proof.
  intros Hb. cbv zeta. rewrite (search_questions_matches repr st request kv Hb).
  set (matches := search_matches repr st (body_value kv "searchTerm")).
  split; [|split; [|split]].
  - destruct matches; simpl; split; congruence || discriminate.
  - intros Hne. destruct matches as [|q l] eqn:E; [congruence|].
    simpl. now rewrite paginate_rows.
  - intros q Hq. apply current_rows_in in Hq. unfold matches, search_matches in Hq.
    now apply filter_In in Hq.
  - intros Hp Hout.
    pose proof (paginate_beyond request matches Hp Hout) as Hnil.
    rewrite paginate_rows in Hnil. now apply map_eq_nil in Hnil.
Qed.

Lemma search_questions_outcome_witness :
  let kv := [("searchTerm", JStr "planet")] in
  1 <= requested_page (page_request "3")
  /\ search_matches repr_any twelve_questions (body_value kv "searchTerm") <> []
  /\ search_questions repr_any twelve_questions
       (mkRequest [("page", "3")] (JObj kv)) =
     Done (JObj [ ("success", JBool true);
                  ("questions", JList []);
                  ("total_questions", JInt 12) ]).
Proof.
  cbv zeta.
  assert (Hp : 1 <= requested_page (page_request "3")) by (vm_compute; discriminate).
  assert (Hne : search_matches repr_any twelve_questions
                  (body_value [("searchTerm", JStr "planet")] "searchTerm") <> [])
    by (vm_compute; discriminate).
  split; [exact Hp|]. split; [exact Hne|].
  rewrite (proj1 (proj2 (search_questions_outcome repr_any twelve_questions
                           (mkRequest [("page", "3")]
                                      (JObj [("searchTerm", JStr "planet")]))
                           [("searchTerm", JStr "planet")] eq_refl)) Hne).
  reflexivity.
Defined.

(** X10. The search reads its term only through the text that the f-string makes
    of it: two bodies whose terms have the same text, as the number 1990 and
    the string "1990", or null, a missing term and the string "None", get the
    same answer; and so do two terms that differ in the case of their
    letters only. *)
Theorem search_questions_by_text
        (repr : json -> string) (st : Store) (request1 request2 : Request)
        (kv1 kv2 : list (string * json)) :
  body request1 = JObj kv1 -> body request2 = JObj kv2 ->
  args request1 = args request2 ->
  Db.lower_text (format_value repr (body_value kv1 "searchTerm"))
  = Db.lower_text (format_value repr (body_value kv2 "searchTerm")) ->
  search_questions repr st request1 = search_questions repr st request2.
Proof.
  intros Hb1 Hb2 Hargs Htext.
  rewrite (search_questions_matches repr st request1 kv1 Hb1).
  rewrite (search_questions_matches repr st request2 kv2 Hb2).
  assert (Hm : search_matches repr st (body_value kv1 "searchTerm")
               = search_matches repr st (body_value kv2 "searchTerm")).
  { unfold search_matches. apply filter_ext. intros q.
    unfold Db.ilike, search_pattern. f_equal.
    unfold Db.lower_text in *. simpl.
    rewrite !list_ascii_of_append, !map_app. now rewrite Htext. }
  rewrite Hm.
  unfold search_answer, paginate_questions, requested_page. now rewrite Hargs.
Qed.

Lemma search_questions_by_text_witness :
  Db.lower_text (format_value repr_any
                   (body_value [("searchTerm", JInt 1990)] "searchTerm"))
  = Db.lower_text (format_value repr_any
                     (body_value [("searchTerm", JStr "1990")] "searchTerm"))
  /\ search_questions repr_any trivia_store (body_request [("searchTerm", JInt 1990)])
     = search_questions repr_any trivia_store
         (body_request [("searchTerm", JStr "1990")]).
Proof.
  split; [reflexivity|].
  exact (search_questions_by_text repr_any trivia_store
           (body_request [("searchTerm", JInt 1990)])
           (body_request [("searchTerm", JStr "1990")])
           _ _ eq_refl eq_refl eq_refl eq_refl).
Defined.

Lemma occurs_inb_nil s : occurs_inb [] s = true.
Proof. destruct s; reflexivity. Qed.

(** X11. A search for the empty string matches every question: the answer pages
    over the whole table, in the order of the table, and is NotFound only on
    a store without questions. *)
Theorem search_questions_empty_term
        (repr : json -> string) (st : Store) (request : Request)
        (kv : list (string * json)) :
  body request = JObj kv ->
  Py.assoc "searchTerm" kv = Some (JStr "") ->
  search_questions repr st request =
  search_answer st request (question_table st).
Proof.
  intros Hb Hterm.
  rewrite (search_plain_text repr st request kv "" Hb).
  - f_equal.
    induction (question_table st) as [|q l IH]; [reflexivity|].
    simpl. unfold contains_ci at 1. simpl Db.lower_text at 1.
    rewrite occurs_inb_nil. now rewrite IH.
  - unfold body_value. now rewrite Hterm.
  - constructor.
Qed.

Lemma search_questions_empty_term_witness :
  search_questions repr_any trivia_store (body_request [("searchTerm", JStr "")])
  = Done (JObj [ ("success", JBool true);
                 ("questions",
                  JList (map Question.format (question_table trivia_store)));
                 ("total_questions", JInt 3) ]).
Proof.
  rewrite (search_questions_empty_term repr_any trivia_store
             (body_request [("searchTerm", JStr "")])
             [("searchTerm", JStr "")] eq_refl eq_refl).
  reflexivity.
Defined.

(* ------------------------------------------------------------------ *)
(** ** GET /categories/<id>/questions: outcome *)
(* ------------------------------------------------------------------ *)

Lemma in_category_ids (l : list Category.t) (id : Z) :
  In id (map Category.id l) <-> exists c, In c l /\ Category.id c = id.
Proof.
  rewrite in_map_iff. split; intros (c & H1 & H2); exists c; tauto.
Qed.

Lemma get_questions_by_category_found st request c :
  unique_category_ids st -> In c (category_table st) ->
  get_questions_by_category st request (Category.id c) =
  Done (JObj [ ("success", JBool true);
               ("questions",
                JList (paginate_questions request (in_category (Category.id c) st)));
               ("total_questions", JInt (len (in_category (Category.id c) st)));
               ("current_category", JStr (Category.type c)) ]).
Proof.
  intros Hu Hc. unfold get_questions_by_category.
  rewrite (filter_unique_key Category.id (category_table st) c Hu Hc).
  reflexivity.
Qed.

(** X12. With category ids that are unique, the questions of a category are
    NotFound exactly when no category has the id.  Otherwise the answer lists
    at most ten stored rows, all of the category, and [total_questions]
    counts the questions of the category, not the table. *)
Theorem get_questions_by_category_outcome
        (st : Store) (request : Request) (id : Z) :
  unique_category_ids st ->
  (get_questions_by_category st request id = abort 404 <->
   ~ In id (map Category.id (category_table st)))
  /\ (forall j,
        get_questions_by_category st request id = Done j ->
        exists rows,
          lists_rows j rows
          /\ len rows <= 10
          /\ (forall q, In q rows ->
                        In q (question_table st) /\ Question.category q = id)
          /\ field "total_questions" j = Some (JInt (len (in_category id st)))
          /\ len (in_category id st) <= len (question_table st)).
Proof.
  intros Hu.
  destruct (in_dec Z.eq_dec id (map Category.id (category_table st)))
    as [Hin | Hout].
  - destruct (proj1 (in_category_ids _ _) Hin) as (c & Hc & Hid).
    subst id. rewrite (get_questions_by_category_found st request c Hu Hc).
    split; [split; [discriminate | tauto]|].
    intros j Hj. inversion Hj; subst j; clear Hj.
    exists (current_rows request (in_category (Category.id c) st)).
    split; [unfold lists_rows; simpl; now rewrite <- paginate_rows|].
    split; [apply current_rows_length|]. split; [|split; [reflexivity|]].
    + intros q Hq. apply current_rows_in in Hq. unfold in_category in Hq.
      apply filter_In in Hq. now rewrite Z.eqb_eq in Hq.
    + unfold in_category, len. pose proof (filter_length_le
        (fun q => Question.category q =? Category.id c) (question_table st)). lia.
  - assert (Hnf : get_questions_by_category st request id = abort 404).
    { unfold get_questions_by_category.
      rewrite (filter_none (fun c => Category.id c =? id)); [reflexivity|].
      intros c Hc. apply Z.eqb_neq. intros E. apply Hout.
      apply in_category_ids. now exists c. }
    rewrite Hnf. split; [tauto | discriminate].
Qed.

Lemma get_questions_by_category_outcome_witness :
  unique_category_ids trivia_store
  /\ ~ In 9 (map Category.id (category_table trivia_store))
  /\ get_questions_by_category trivia_store (page_request "1") 9 = abort 404.
Proof.
  assert (Hu : unique_category_ids trivia_store).
  { unfold unique_category_ids. simpl.
    repeat constructor; simpl; intuition discriminate. }
  assert (Hout : ~ In 9 (map Category.id (category_table trivia_store)))
    by (simpl; intuition discriminate).
  split; [exact Hu|]. split; [exact Hout|].
  exact (proj2 (proj1 (get_questions_by_category_outcome trivia_store
                         (page_request "1") 9 Hu)) Hout).
Defined.

(* ------------------------------------------------------------------ *)
(** ** POST /quizzes: bad requests, uncaught errors, the end of a quiz *)
(* ------------------------------------------------------------------ *)

Lemma play_quiz_object randrange st request kv :
  body request = JObj kv ->
  play_quiz randrange st request =
  if PyObj.is_none (body_value kv "quiz_category")
     || PyObj.is_none (body_value kv "previous_questions")
  then abort 400
  else
    category_id <- PyObj.getitem (body_value kv "quiz_category") "id" ;;
    questions <- quiz_candidates st category_id (body_value kv "previous_questions") ;;
    next_question <-
      (if 0 <? len questions
       then q <- PyObj.index questions (randrange 0 (len questions)) ;;
            Done (Question.format q)
       else Done JNull) ;;
    Done (JObj [ ("success", JBool true); ("question", next_question) ]).
Proof. intros Hb. unfold play_quiz. rewrite Hb. reflexivity. Qed.

Lemma is_none_iff v : PyObj.is_none v = true <-> v = JNull.
Proof. destruct v; simpl; split; congruence. Qed.

(** X13. POST /quizzes with a JSON object as body is BadRequest (400, "bad
    request") exactly when [quiz_category] or [previous_questions] is
    missing from the body or null. *)
Theorem play_quiz_bad_request
        (randrange : Z -> Z -> Z) (st : Store) (request : Request)
        (kv : list (string * json)) :
  body request = JObj kv ->
  (play_quiz randrange st request = abort 400 <->
   body_value kv "quiz_category" = JNull
   \/ body_value kv "previous_questions" = JNull)
  /\ (play_quiz randrange st request = abort 400 ->
      respond (play_quiz randrange st request) =
      mkResponse (Some (envelope 400 "bad request")) 400).
Proof.
  intros Hb. split; [|intros ->; reflexivity].
  rewrite (play_quiz_object randrange st request kv Hb).
  rewrite <- !is_none_iff, <- orb_true_iff.
  destruct (PyObj.is_none _ || PyObj.is_none _); [tauto|].
  split; [|discriminate]. intros H. exfalso.
  apply bind_raises in H. destruct H as [H | (c & _ & H)];
    [apply getitem_raises in H; destruct H; discriminate|].
  apply bind_raises in H. destruct H as [H | (qs & _ & H)];
    [apply quiz_candidates_raises in H; discriminate|].
  apply bind_raises in H. destruct H as [H | (nq & _ & H)]; [|discriminate].
  destruct (0 <? len qs); [|discriminate].
  apply bind_raises in H. destruct H as [H | (q & _ & H)];
    [apply index_raises in H; discriminate | discriminate].
Qed.

Lemma play_quiz_bad_request_witness :
  let kv := [ ("quiz_category", JObj [("id", JInt 0)]);
              ("previous_questions", JNull) ] in
  body_value kv "previous_questions" = JNull
  /\ play_quiz lowest trivia_store (body_request kv) = abort 400.
Proof.
  cbv zeta. split; [reflexivity|].
  apply (proj1 (play_quiz_bad_request lowest trivia_store (body_request _) _ eq_refl)).
  right. reflexivity.
Defined.

(** X14. POST /quizzes whose [quiz_category] is there but has no [id] (or is not
    an object) raises KeyError (or TypeError) outside any try: the answer is
    the framework's 500, not one of the envelopes. *)
Theorem play_quiz_category_without_id
        (randrange : Z -> Z -> Z) (st : Store) (request : Request)
        (kv : list (string * json)) :
  body request = JObj kv ->
  body_value kv "quiz_category" <> JNull ->
  body_value kv "previous_questions" <> JNull ->
  field "id" (body_value kv "quiz_category") = None ->
  play_quiz randrange st request =
  Raises (if is_object (body_value kv "quiz_category") then KeyError else TypeError)
  /\ respond (play_quiz randrange st request) = mkResponse None 500.
Proof.
  intros Hb Hqc Hpq Hid.
  rewrite (play_quiz_object randrange st request kv Hb).
  destruct (PyObj.is_none (body_value kv "quiz_category")) eqn:E1;
    [apply is_none_iff in E1; contradiction|].
  destruct (PyObj.is_none (body_value kv "previous_questions")) eqn:E2;
    [apply is_none_iff in E2; contradiction|].
  simpl orb. cbv iota.
  destruct (body_value kv "quiz_category"); simpl in *; try (split; reflexivity);
    try contradiction.
  rewrite Hid. split; reflexivity.
Qed.

Lemma play_quiz_category_without_id_witness :
  let kv := [ ("quiz_category", JObj [("type", JStr "Science")]);
              ("previous_questions", JList []) ] in
  field "id" (body_value kv "quiz_category") = None
  /\ respond (play_quiz lowest trivia_store (body_request kv)) = mkResponse None 500.
Proof.
  cbv zeta. split; [reflexivity|].
  apply (play_quiz_category_without_id lowest trivia_store (body_request _) _ eq_refl);
    [discriminate | discriminate | reflexivity].
Defined.

(** X15. The three POST endpoints call [body.get] before any try: when
    [request.get_json()] returns something that is not a dict (None, a list,
    a string, ...) each of them raises AttributeError, the store is left as
    it was, and the answer is the framework's 500, not one of the
    envelopes. *)
Theorem post_body_not_an_object
        (repr : json -> string) (randrange : Z -> Z -> Z)
        (insert : Store -> json -> json -> json -> json -> result (Store * Question.t))
        (st : Store) (request : Request) :
  is_object (body request) = false ->
  create_question insert st request = (st, Raises AttributeError)
  /\ search_questions repr st request = Raises AttributeError
  /\ play_quiz randrange st request = Raises AttributeError
  /\ respond (Raises AttributeError) = mkResponse None 500.
Proof.
  intros Hb. unfold create_question, search_questions, play_quiz.
  destruct (body request); try discriminate; repeat split.
Qed.

Lemma post_body_not_an_object_witness :
  is_object (body (mkRequest [] (JList [JInt 1]))) = false
  /\ create_question Db.insert trivia_store (mkRequest [] (JList [JInt 1]))
     = (trivia_store, Raises AttributeError).
Proof.
  split; [reflexivity|].
  exact (proj1 (post_body_not_an_object repr_any lowest Db.insert trivia_store
                  (mkRequest [] (JList [JInt 1])) eq_refl)).
Defined.

Lemma notin_cons x y previous :
  Db.notin_ x (map Some (y :: previous)) =
  negb (x =? y) && Db.notin_ x (map Some previous).
Proof. reflexivity. Qed.

Lemma quiz_candidates_pool st category_id previous :
  quiz_candidates st (JInt category_id) (JList (map JInt previous)) =
  Done (filter (fun q => Db.notin_ (Question.id q) (map Some previous))
               (quiz_pool st category_id)).
Proof.
  unfold quiz_candidates, quiz_pool. simpl. rewrite int_params_ints. simpl.
  destruct (category_id =? 0); reflexivity.
Qed.

Lemma quiz_pool_in st category_id q :
  In q (quiz_pool st category_id) <->
  In q (question_table st) /\ (category_id = 0 \/ Question.category q = category_id).
Proof.
  unfold quiz_pool. destruct (category_id =? 0) eqn:E.
  - apply Z.eqb_eq in E. tauto.
  - apply Z.eqb_neq in E. rewrite filter_In, Z.eqb_eq. tauto.
Qed.

Lemma play_quiz_request randrange st category_id previous :
  play_quiz randrange st (quiz_request category_id previous) =
  let questions :=
    filter (fun q => Db.notin_ (Question.id q) (map Some previous))
           (quiz_pool st category_id) in
  next_question <-
    (if 0 <? len questions
     then q <- PyObj.index questions (randrange 0 (len questions)) ;;
          Done (Question.format q)
     else Done JNull) ;;
  Done (JObj [ ("success", JBool true); ("question", next_question) ]).
Proof.
  rewrite (play_quiz_object randrange st (quiz_request category_id previous) _ eq_refl).
  change (body_value _ "quiz_category") with (JObj [("id", JInt category_id)]).
  change (body_value _ "previous_questions") with (JList (map JInt previous)).
  cbn [PyObj.is_none orb PyObj.getitem Py.assoc String.eqb Ascii.eqb Bool.eqb bind].
  rewrite quiz_candidates_pool. reflexivity.
Qed.

(** X16. The quiz is over, with the answer [{success: true, question: null}],
    exactly when the id of every question of the category (of every question,
    for category 0) is among [previous_questions]; this does not depend on
    the random number. *)
Theorem play_quiz_over_iff
        (randrange : Z -> Z -> Z) (st : Store) (category_id : Z) (previous : list Z) :
  play_quiz randrange st (quiz_request category_id previous) = Done quiz_over
  <-> (forall q, In q (question_table st) ->
                 category_id = 0 \/ Question.category q = category_id ->
                 In (Question.id q) previous).
Proof.
  rewrite play_quiz_request. cbv zeta.
  set (questions := filter _ (quiz_pool st category_id)).
  assert (Hmem : forall q, In q questions <->
                           In q (quiz_pool st category_id)
                           /\ ~ In (Question.id q) previous).
  { intros q. unfold questions. rewrite filter_In, notin_ints. tauto. }
  destruct questions as [|q0 l] eqn:E.
  - split; [|reflexivity]. intros _ q Hq Hcat.
    destruct (in_dec Z.eq_dec (Question.id q) previous) as [Hin | Hout]; [exact Hin|].
    exfalso. apply (proj2 (Hmem q)).
    split; [apply quiz_pool_in; tauto | exact Hout].
  - split.
    + intros H. exfalso. change (0 <? len (q0 :: l)) with true in H. cbv iota in H.
      destruct (PyObj.index (q0 :: l) (randrange 0 (len (q0 :: l)))) as [q|e];
        simpl in H; discriminate.
    + intros Hall. exfalso.
      assert (Hq0 : In q0 (q0 :: l)) by now left.
      apply Hmem in Hq0. destruct Hq0 as [Hpool Hnot].
      apply quiz_pool_in in Hpool. destruct Hpool as [Hin Hcat].
      apply Hnot. now apply Hall.
Qed.

Lemma play_quiz_over_iff_witness :
  (forall q, In q (question_table trivia_store) ->
             1 = 0 \/ Question.category q = 1 -> In (Question.id q) [2; 1])
  /\ play_quiz lowest trivia_store (quiz_request 1 [2; 1]) = Done quiz_over.
Proof.
  assert (Hall : forall q, In q (question_table trivia_store) ->
                           1 = 0 \/ Question.category q = 1 ->
                           In (Question.id q) [2; 1]).
  { simpl. intros q [<- | [<- | [<- | []]]] [H | H]; simpl in *;
      auto; discriminate. }
  split; [exact Hall|].
  exact (proj2 (play_quiz_over_iff lowest trivia_store 1 [2; 1]) Hall).
Defined.

Lemma nodup_ids_filter (p : Question.t -> bool) (l : list Question.t) :
  NoDup (map Question.id l) -> NoDup (map Question.id (filter p l)).
Proof.
  induction l as [|x l IH]; simpl; [constructor|].
  intros H. inversion H as [|? ? Hn Hd]; subst.
  destruct (p x); simpl; [constructor|]; auto.
  intros Hin. apply Hn. apply in_map_iff in Hin. destruct Hin as (y & Hy & Hf).
  apply filter_In in Hf. apply in_map_iff. exists y. tauto.
Qed.

Lemma filter_filter {A : Type} (p r : A -> bool) (l : list A) :
  filter p (filter r l) = filter (fun a => r a && p a) l.
Proof.
  induction l as [|a l IH]; simpl; [reflexivity|].
  destruct (r a); simpl; [destruct (p a)|]; now rewrite IH.
Qed.

(** X17. With ids that are unique, asking a question and adding its id to
    [previous_questions] leaves exactly one candidate fewer for the next
    request, the others unchanged and in the same order: a quiz serves each
    question of its category at most once and is over after as many questions
    as the category has. *)
Theorem play_quiz_progress
        (st : Store) (category_id : Z) (previous : list Z)
        (candidates : list Question.t) (q : Question.t) :
  unique_question_ids st ->
  quiz_candidates st (JInt category_id) (JList (map JInt previous)) = Done candidates ->
  In q candidates ->
  quiz_candidates st (JInt category_id)
                  (JList (map JInt (Question.id q :: previous)))
  = Done (filter (fun r => negb (has_id (Question.id q) r)) candidates)
  /\ len (filter (fun r => negb (has_id (Question.id q) r)) candidates)
     = len candidates - 1
  /\ ~ In q (filter (fun r => negb (has_id (Question.id q) r)) candidates).
Proof.
  intros Hu Hc Hq. rewrite quiz_candidates_pool in *.
  inversion Hc as [Hc']; clear Hc. split; [|split].
  - f_equal. rewrite filter_filter. apply filter_ext. intros r.
    rewrite notin_cons. unfold has_id. apply andb_comm.
  - assert (Hnd : NoDup (map Question.id candidates)).
    { subst candidates. apply nodup_ids_filter.
      unfold quiz_pool. destruct (category_id =? 0);
        [exact Hu | now apply nodup_ids_filter]. }
    pose proof (filter_split_length (has_id (Question.id q)) candidates) as Hl.
    unfold has_id in Hl at 1.
    rewrite (filter_unique_key Question.id candidates q Hnd Hq) in Hl.
    change (List.length [q]) with 1%nat in Hl. rewrite !Hc'. unfold len. lia.
  - intros Hin. apply filter_In in Hin. destruct Hin as [_ Hin].
    unfold has_id in Hin. now rewrite Z.eqb_refl in Hin.
Qed.

Lemma play_quiz_progress_witness :
  unique_question_ids trivia_store
  /\ quiz_candidates trivia_store (JInt 1) (JList (map JInt [])) =
     Done [ Question.mk 1 "What is the title of the 1990 fantasy directed by Tim Burton?"
                        "Edward Scissorhands" 1 3;
            Question.mk 2 "Which two planets have none of the known moons?"
                        "Mercury and Venus" 1 2 ]
  /\ quiz_candidates trivia_store (JInt 1) (JList (map JInt [1])) =
     Done [ Question.mk 2 "Which two planets have none of the known moons?"
                        "Mercury and Venus" 1 2 ].
Proof.
  assert (Hu : unique_question_ids trivia_store).
  { unfold unique_question_ids. simpl.
    repeat constructor; simpl; intuition discriminate. }
  assert (Hc : quiz_candidates trivia_store (JInt 1) (JList (map JInt [])) =
               Done [ Question.mk 1 "What is the title of the 1990 fantasy directed by Tim Burton?"
                                  "Edward Scissorhands" 1 3;
                      Question.mk 2 "Which two planets have none of the known moons?"
                                  "Mercury and Venus" 1 2 ])
    by reflexivity.
  split; [exact Hu|]. split; [exact Hc|].
  exact (proj1 (play_quiz_progress trivia_store 1 [] _
                  (Question.mk 1 "What is the title of the 1990 fantasy directed by Tim Burton?"
                               "Edward Scissorhands" 1 3)
                  Hu Hc (or_introl eq_refl))).
Defined.

(* ------------------------------------------------------------------ *)
(** ** GET /categories *)
(* ------------------------------------------------------------------ *)

Lemma insert_by_perm_any {A : Type} (le : A -> A -> bool) x l :
  Permutation (Db.insert_by le x l) (x :: l).
Proof.
  induction l as [|y l IH]; simpl; [reflexivity|].
  destruct (le x y); [reflexivity|]. rewrite IH. apply perm_swap.
Qed.

Lemma order_by_perm_any {A : Type} (le : A -> A -> bool) l :
  Permutation (Db.order_by le l) l.
Proof.
  induction l as [|x l IH]; simpl; [constructor|].
  rewrite insert_by_perm_any. now constructor.
Qed.

Lemma assoc_dict_set d k k' v :
  Py.assoc k (dict_set d k' v) =
  if String.eqb k k' then Some v else Py.assoc k d.
Proof.
  induction d as [|[k0 v0] d IH]; simpl.
  - reflexivity.
  - destruct (String.eqb k' k0) eqn:E0; simpl.
    + apply String.eqb_eq in E0. subst k0.
      destruct (String.eqb k k'); reflexivity.
    + destruct (String.eqb k k0) eqn:E1.
      * apply String.eqb_eq in E1. subst k0.
        rewrite String.eqb_sym in E0. now rewrite E0.
      * exact IH.
Qed.

Section DictOfRows.

Context {A : Type} (key : A -> string) (val : A -> json).

Local Abbreviation build :=
  (fold_left (fun d a => dict_set d (key a) (val a))).

Lemma build_other rows d k :
  (forall a, In a rows -> key a <> k) ->
  Py.assoc k (build rows d) = Py.assoc k d.
Proof.
  revert d. induction rows as [|x rows IH]; intros d Hk; simpl; [reflexivity|].
  rewrite IH by (intros a Ha; apply Hk; now right).
  rewrite assoc_dict_set.
  destruct (String.eqb k (key x)) eqn:E; [|reflexivity].
  apply String.eqb_eq in E. exfalso. apply (Hk x); [now left | congruence].
Qed.

Lemma build_unique rows d a :
  NoDup (map key rows) -> In a rows ->
  Py.assoc (key a) (build rows d) = Some (val a).
Proof.
  revert d. induction rows as [|x rows IH]; intros d Hnd Hin; [destruct Hin|].
  inversion Hnd as [|? ? Hnotin Hnd']; subst. simpl.
  destruct Hin as [-> | Hin].
  - rewrite build_other.
    + rewrite assoc_dict_set. now rewrite String.eqb_refl.
    + intros b Hb E. apply Hnotin. rewrite <- E. now apply in_map.
  - now apply IH.
Qed.

Lemma build_from rows d k v :
  Py.assoc k (build rows d) = Some v ->
  Py.assoc k d = Some v \/ exists a, In a rows /\ k = key a /\ v = val a.
Proof.
  revert d. induction rows as [|x rows IH]; intros d H; simpl in H; [now left|].
  apply IH in H. destruct H as [H | (a & Ha & Hk & Hv)].
  - rewrite assoc_dict_set in H.
    destruct (String.eqb k (key x)) eqn:E; [|now left].
    apply String.eqb_eq in E. inversion H; subst. right. exists x.
    split; [now left | split; reflexivity].
  - right. exists a. split; [now right | tauto].
Qed.

End DictOfRows.

(** X18. GET /categories is NotFound exactly when there is no category.
    Otherwise it answers with a dict in which, when the category ids are
    unique, the numeral of every category's id is bound to the type of the
    category, and which binds nothing else. *)
Theorem get_catgories_outcome (st : Store) :
  (get_catgories st = abort 404 <-> category_table st = [])
  /\ (category_table st <> [] ->
      get_catgories st =
      Done (JObj [ ("success", JBool true);
                   ("categories",
                    JObj (category_dict (Db.order_by_type (category_table st)))) ]))
  /\ (unique_category_ids st ->
      forall c, In c (category_table st) ->
                Py.assoc (Py.str_of_int (Category.id c))
                         (category_dict (Db.order_by_type (category_table st)))
                = Some (JStr (Category.type c)))
  /\ (forall k v,
        Py.assoc k (category_dict (Db.order_by_type (category_table st))) = Some v ->
        exists c, In c (category_table st)
                  /\ k = Py.str_of_int (Category.id c)
                  /\ v = JStr (Category.type c)).
Proof.
  assert (Hperm : Permutation (Db.order_by_type (category_table st))
                              (category_table st))
    by apply order_by_perm_any.
  assert (Hnil : Db.order_by_type (category_table st) = [] <-> category_table st = []).
  { split; intros H.
    - rewrite H in Hperm. now apply Permutation_nil in Hperm.
    - now rewrite H. }
  unfold get_catgories. fold (category_dict (Db.order_by_type (category_table st))).
  split; [|split; [|split]].
  - destruct (len _ =? 0) eqn:E.
    + apply (proj1 (len_zero_nil _)) in E. tauto.
    + apply (proj1 (len_zero_cons _)) in E. split; [discriminate | tauto].
  - intros Hne. destruct (len _ =? 0) eqn:E; [|reflexivity].
    apply (proj1 (len_zero_nil _)) in E. tauto.
  - intros Hu c Hc. unfold category_dict.
    apply (build_unique (fun c => Py.str_of_int (Category.id c))
                        (fun c => JStr (Category.type c))).
    + unfold unique_category_ids in Hu.
      assert (Hids : NoDup (map Category.id (Db.order_by_type (category_table st)))).
      { eapply Permutation_NoDup; [|exact Hu].
        apply Permutation_map, Permutation_sym, Hperm. }
      rewrite <- (map_map Category.id Py.str_of_int).
      apply Finite.Injective_map_NoDup; [|exact Hids].
      intros a b. apply str_of_int_inj.
    + eapply Permutation_in; [apply Permutation_sym, Hperm | exact Hc].
  - intros k v H. unfold category_dict in H.
    apply (build_from (fun c => Py.str_of_int (Category.id c))
                      (fun c => JStr (Category.type c))) in H.
    destruct H as [H | (c & Hc & Hk & Hv)]; [discriminate|].
    exists c. split; [|tauto]. eapply Permutation_in; [exact Hperm | exact Hc].
Qed.

Lemma get_catgories_outcome_witness :
  unique_category_ids trivia_store
  /\ In (Category.mk 3 "Geography") (category_table trivia_store)
  /\ Py.assoc (Py.str_of_int 3)
              (category_dict (Db.order_by_type (category_table trivia_store)))
     = Some (JStr "Geography").
Proof.
  assert (Hu : unique_category_ids trivia_store).
  { unfold unique_category_ids. simpl.
    repeat constructor; simpl; intuition discriminate. }
  assert (Hin : In (Category.mk 3 "Geography") (category_table trivia_store))
    by (simpl; auto).
  split; [exact Hu|]. split; [exact Hin|].
  exact (proj1 (proj2 (proj2 (get_catgories_outcome trivia_store))) Hu _ Hin).
Defined.

(* ------------------------------------------------------------------ *)
(** ** What the endpoints list, and the success flag *)
(* ------------------------------------------------------------------ *)

Lemma bind_done {A B : Type} (r : result A) (k : A -> result B) (b : B) :
  (x <- r ;; k x) = Done b -> exists a, r = Done a /\ k a = Done b.
Proof. destruct r as [a|e]; simpl; [now exists a | discriminate]. Qed.

Lemma get_questions_lists st request j :
  get_questions st request = Done j ->
  lists_rows j (current_rows request (Db.order_by_id (question_table st)))
  /\ field "success" j = Some (JBool true).
Proof.
  unfold get_questions. rewrite paginate_rows.
  destruct (len _ =? 0); [discriminate|].
  intros H. inversion H. split; reflexivity.
Qed.

Lemma search_questions_lists repr st request j :
  search_questions repr st request = Done j ->
  (exists kv, body request = JObj kv
              /\ lists_rows j (current_rows request
                                 (search_matches repr st (body_value kv "searchTerm"))))
  /\ field "success" j = Some (JBool true).
Proof.
  destruct (body request) as [| | | | |kv] eqn:Hb;
    try (unfold search_questions; rewrite Hb; discriminate).
  rewrite (search_questions_matches repr st request kv Hb).
  destruct (search_matches _ _ _) as [|q l] eqn:E; [discriminate|].
  simpl. rewrite paginate_rows. intros H. inversion H.
  split; [exists kv; split; [reflexivity | now rewrite E] | reflexivity].
Qed.

Lemma get_questions_by_category_lists st request id j :
  get_questions_by_category st request id = Done j ->
  lists_rows j (current_rows request (in_category id st))
  /\ field "success" j = Some (JBool true).
Proof.
  unfold get_questions_by_category.
  destruct (filter _ (category_table st)) as [|c [|c' l]]; simpl; try discriminate.
  rewrite paginate_rows. intros H. inversion H. split; reflexivity.
Qed.

Lemma quiz_candidates_stored st c p questions q :
  quiz_candidates st c p = Done questions -> In q questions ->
  In q (question_table st).
Proof.
  unfold quiz_candidates. destruct (PyObj.eq_zero c); intros H Hq.
  - apply bind_done in H. destruct H as (prev & _ & H). inversion H; subst.
    now apply filter_In in Hq.
  - apply bind_done in H. destruct H as (x & _ & H).
    apply bind_done in H. destruct H as (prev & _ & H). inversion H; subst.
    apply filter_In in Hq. destruct Hq as [Hq _]. now apply filter_In in Hq.
Qed.

Lemma index_done {A : Type} (l : list A) (i : Z) (a : A) :
  PyObj.index l i = Done a -> In a l.
Proof.
  unfold PyObj.index. destruct (_ && _); [|discriminate].
  destruct (nth_error _ _) eqn:E; [|discriminate].
  intros H. inversion H; subst. eapply nth_error_In. exact E.
Qed.

Lemma play_quiz_serves randrange st request j :
  play_quiz randrange st request = Done j ->
  field "success" j = Some (JBool true)
  /\ (field "question" j = Some JNull
      \/ exists q, In q (question_table st)
                   /\ field "question" j = Some (Question.format q)).
Proof.
  unfold play_quiz. intros H.
  apply bind_done in H. destruct H as (qc & _ & H).
  apply bind_done in H. destruct H as (pq & _ & H).
  destruct (_ || _); [discriminate|].
  apply bind_done in H. destruct H as (c & _ & H).
  apply bind_done in H. destruct H as (qs & Hqs & H).
  apply bind_done in H. destruct H as (nq & Hnq & H).
  inversion H; subst; clear H. split; [reflexivity|].
  destruct (0 <? len qs).
  - apply bind_done in Hnq. destruct Hnq as (q & Hq & Hnq).
    inversion Hnq; subst. right. exists q. split; [|reflexivity].
    apply index_done in Hq. eapply quiz_candidates_stored; eassumption.
  - inversion Hnq. now left.
Qed.




Lemma endpoints_abort_codes repr randrange insert st request i r code :
  In r (endpoints repr randrange insert st request i) ->
  raises_http r code -> code = 400 \/ code = 422 \/ code = 404.
Proof.
  unfold endpoints. simpl.
  intros [<-|[<-|[<-|[<-|[<-|[<-|[<-|[]]]]]]]] Hr.
  - unfold raises_http, get_catgories in Hr.
    destruct (_ =? 0); [unfold abort in Hr; inversion Hr; auto | discriminate].
  - unfold raises_http, get_questions in Hr.
    destruct (_ =? 0); [unfold abort in Hr; inversion Hr; auto | discriminate].
  - apply delete_question_raises in Hr. auto.
  - apply create_question_raises in Hr. auto.
  - apply search_questions_raises in Hr. auto.
  - unfold raises_http, get_questions_by_category in Hr.
    apply try_except_raises in Hr. inversion Hr. auto.
  - apply play_quiz_raises in Hr. auto.
Qed.

Lemma endpoints_done_success repr randrange insert st request i r j :
  In r (endpoints repr randrange insert st request i) ->
  r = Done j -> field "success" j = Some (JBool true).
Proof.
  unfold endpoints. simpl.
  intros [<-|[<-|[<-|[<-|[<-|[<-|[<-|[]]]]]]]] Hr.
  - unfold get_catgories in Hr. destruct (_ =? 0); [discriminate|].
    now inversion Hr.
  - now apply get_questions_lists in Hr.
  - pose proof (delete_question_cases st request i) as Hc.
    destruct (filter (has_id i) (question_table st)) as [|q [|q' l]];
      cbv zeta in Hc; rewrite Hc in Hr; simpl in Hr; try discriminate.
    now inversion Hr.
  - destruct (body request) as [| | | | |kv] eqn:Hb;
      try (unfold create_question in Hr; rewrite Hb in Hr; discriminate).
    rewrite (create_question_cases insert st request kv Hb) in Hr.
    destruct (_ && _); [|discriminate].
    destruct (insert _ _ _ _ _) as [[st' q]|e]; simpl in Hr; [|discriminate].
    now inversion Hr.
  - now apply search_questions_lists in Hr.
  - now apply get_questions_by_category_lists in Hr.
  - now apply play_quiz_serves in Hr.
Qed.

(** X19. The [success] flag of a response agrees with its status, for every
    endpoint and every request: a payload with status 200 has success: true;
    any other payload is one of the three envelopes, with success: false and
    its own status (400, 404 or 422) as [error]; and a response without a
    payload is the framework's 500. *)
Theorem success_flag_agrees
        (repr : json -> string) (randrange : Z -> Z -> Z)
        (insert : Store -> json -> json -> json -> json -> result (Store * Question.t))
        (st : Store) (request : Request) (i : Z) (r : result json) :
  In r (endpoints repr randrange insert st request i) ->
  match payload (respond r) with
  | Some j =>
      if status (respond r) =? 200
      then field "success" j = Some (JBool true)
      else field "success" j = Some (JBool false)
           /\ field "error" j = Some (JInt (status (respond r)))
           /\ (status (respond r) = 400 \/ status (respond r) = 404
               \/ status (respond r) = 422)
  | None => status (respond r) = 500
  end.
Proof.
  intros Hin. destruct r as [j | e].
  - simpl. now apply (endpoints_done_success repr randrange insert st request i (Done j)).
  - destruct e; try reflexivity.
    assert (Hcode : code = 400 \/ code = 422 \/ code = 404)
      by (apply (endpoints_abort_codes repr randrange insert st request i
                   (Raises (HTTPException code))); [exact Hin | reflexivity]).
    destruct Hcode as [-> | [-> | ->]]; simpl; auto.
Qed.

Lemma success_flag_agrees_witness :
  In (get_questions trivia_store (page_request "7"))
     (endpoints repr_any lowest Db.insert trivia_store (page_request "7") 1)
  /\ field "success" (envelope 404 "resource not found") = Some (JBool false)
  /\ field "error" (envelope 404 "resource not found") = Some (JInt 404).
Proof.
  assert (Hin : In (get_questions trivia_store (page_request "7"))
                   (endpoints repr_any lowest Db.insert trivia_store (page_request "7") 1))
    by (right; left; reflexivity).
  split; [exact Hin|].
  pose proof (success_flag_agrees repr_any lowest Db.insert trivia_store (page_request "7") 1
                _ Hin) as H.
  change (field "success" (envelope 404 "resource not found") = Some (JBool false)
          /\ field "error" (envelope 404 "resource not found") = Some (JInt 404)
          /\ (404 = 400 \/ 404 = 404 \/ 404 = 422)) in H.
  destruct H as (H1 & H2 & _). split; assumption.
Defined.

(* ------------------------------------------------------------------ *)
(** ** POST /questions, then GET /questions; the store under writes *)
(* ------------------------------------------------------------------ *)

Lemma create_question_done st request st' j :
  create_question Db.insert st request = (st', Done j) ->
  exists kv row,
    body request = JObj kv
    /\ Db.insert st (body_value kv "question") (body_value kv "answer")
                    (body_value kv "category") (body_value kv "difficulty")
       = Done (st', row)
    /\ field "created" j = Some (JInt (Question.id row))
    /\ field "total_questions" j = Some (JInt (len (question_table st'))).
Proof.
  intros H.
  destruct (body request) as [| | | | |kv] eqn:Hb;
    try (unfold create_question in H; rewrite Hb in H; discriminate).
  rewrite (create_question_cases Db.insert st request kv Hb) in H.
  destruct (_ && _); [|discriminate].
  destruct (Db.insert _ _ _ _ _) as [[st1 row]|e] eqn:E; [|discriminate].
  inversion H; subst; clear H. exists kv, row. repeat split. exact E.
Qed.

(** X20. A question that POST /questions has created is listed by a later
    GET /questions, on some page, with the id that the response gave as
    [created] and with the four values of the request body; and
    [total_questions] has grown by one. *)
Theorem created_question_is_listed
        (st st' : Store) (request : Request) (j : json) :
  create_question Db.insert st request = (st', Done j) ->
  exists kv created page_number page,
    body request = JObj kv
    /\ field "created" j = Some (JInt created)
    /\ field "total_questions" j = Some (JInt (len (question_table st) + 1))
    /\ get_questions st' (numbered_page page_number) =
       Done (JObj [ ("success", JBool true);
                    ("questions", JList page);
                    ("total_questions", JInt (len (question_table st) + 1)) ])
    /\ In (JObj [ ("id", JInt created);
                  ("question", body_value kv "question");
                  ("answer", body_value kv "answer");
                  ("category", body_value kv "category");
                  ("difficulty", body_value kv "difficulty") ]) page.
Proof.
  intros H. apply create_question_done in H.
  destruct H as (kv & row & Hb & Hins & Hcreated & Htotal).
  destruct (insert_row _ _ _ _ _ _ _ Hins) as (Hid & Htab & Hfmt).
  assert (Hlen : len (question_table st') = len (question_table st) + 1).
  { rewrite Htab. unfold len. rewrite length_app. simpl. lia. }
  assert (Hrow : In row (Db.order_by_id (question_table st'))).
  { apply order_by_id_in. rewrite Htab. apply in_or_app. right. now left. }
  apply In_nth_error in Hrow. destruct Hrow as (n & Hn).
  pose proof (paginate_at_position _ n row Hn) as Hi.
  exists kv, (Question.id row), (Z.of_nat n / 10 + 1).
  eexists. split; [exact Hb|]. split; [exact Hcreated|].
  split; [now rewrite <- Hlen|]. split.
  - rewrite <- Hlen. apply (get_questions_nonempty st' _ (Question.format row)).
    eapply nth_error_In. exact Hi.
  - rewrite Hid at 1. rewrite <- Hfmt. eapply nth_error_In. exact Hi.
Qed.

Lemma created_question_is_listed_witness :
  let request :=
    body_request [ ("question", JStr "Q1"); ("answer", JStr "A1");
                   ("category", JInt 1); ("difficulty", JInt 3) ] in
  exists st' j,
    create_question Db.insert trivia_store request = (st', Done j)
    /\ exists page_number page,
        get_questions st' (numbered_page page_number) =
        Done (JObj [ ("success", JBool true);
                     ("questions", JList page);
                     ("total_questions", JInt 4) ])
        /\ In (JObj [ ("id", JInt 4); ("question", JStr "Q1"); ("answer", JStr "A1");
                      ("category", JInt 1); ("difficulty", JInt 3) ]) page.
Proof.
  cbv zeta. eexists. eexists.
  assert (Hc : create_question Db.insert trivia_store
                 (body_request [ ("question", JStr "Q1"); ("answer", JStr "A1");
                                 ("category", JInt 1); ("difficulty", JInt 3) ])
               = (mkStore (question_table trivia_store ++ [Question.mk 4 "Q1" "A1" 1 3])
                          sample_categories 5,
                  Done (JObj [ ("success", JBool true);
                               ("created", JInt 4);
                               ("questions",
                                JList (map Question.format
                                           (question_table trivia_store
                                            ++ [Question.mk 4 "Q1" "A1" 1 3])));
                               ("total_questions", JInt 4) ])))
    by reflexivity.
  split; [exact Hc|].
  destruct (created_question_is_listed _ _ _ _ Hc)
    as (kv & created & page_number & page & Hb & Hcr & _ & Hget & Hin).
  inversion Hb; subst kv. inversion Hcr; subst created.
  exists page_number, page. split; [exact Hget | exact Hin].
Defined.








(* ------------------------------------------------------------------ *)
(** ** White space, escapes and text parameters on examples *)
(* ------------------------------------------------------------------ *)

Example int_unit_separator :
  Py.int (String (ascii_of_nat 31) "2") = None.
Proof. reflexivity. Qed.

Example int_form_feed :
  Py.int (String (ascii_of_nat 12) "2") = Some 2.
Proof. reflexivity. Qed.

Example like_escaped_percent :
  Db.ilike "50% of them" "%50\%%" = true /\ Db.ilike "50 of them" "%50\%%" = false.
Proof. split; reflexivity. Qed.

Example like_escaped_backslash :
  Db.ilike "a\b" "%a\\b%" = true /\ Db.ilike "a\b" "%a\b%" = false.
Proof. split; reflexivity. Qed.

Example int_param_of_text :
  Db.int_param (JStr "1") = Done (Some 1)
  /\ Db.int_param (JStr " -12 ") = Done (Some (-12))
  /\ Db.int_param (JStr "one") = Raises StoreError.
Proof. repeat split. Qed.

Example quiz_with_text_ids :
  play_quiz lowest trivia_store
    (body_request [ ("quiz_category", JObj [("id", JStr "3")]);
                    ("previous_questions", JList [JStr "1"]) ])
  = Done (JObj [ ("success", JBool true);
                 ("question",
                  Question.format
                    (Question.mk 3 "What is the largest lake in Africa?"
                                 "Lake Victoria" 3 2)) ]).
Proof. reflexivity. Qed.

Example create_without_key_is_not_inserted :
  fst (create_question insert_anything trivia_store
         (body_request [ ("question", JStr "Q1"); ("answer", JStr "A1");
                         ("difficulty", JInt 3) ]))
  = trivia_store.
Proof. reflexivity. Qed.
